(** * EcoFinds marketplace ([app.py]): a shallow embedding of the request
    handlers and the properties of the catalog, cart and checkout logic.

    The relational store is a record of tables; a table is the list of its
    rows in rowid order.  Every handler is a function from the request data
    and the store to a response and the store after the request.  A request
    that ends in an unhandled exception leaves the store as it was: the
    session is discarded without a commit. *)

From Stdlib Require Import ZArith List String Ascii Bool Lia.
From Stdlib Require Import Sorting.Sorted.
From Stdlib Require Import Floats.SpecFloat.
Import ListNotations.

Local Open Scope string_scope.
Local Open Scope list_scope.
Local Open Scope Z_scope.

(** ** Python built-ins used by the handlers

    Strings are sequences of ASCII characters. *)
Module Py.

Definition chars (s : string) : list ascii := list_ascii_of_string s.
Definition str (l : list ascii) : string := string_of_list_ascii l.

Definition code (c : ascii) : Z := Z.of_nat (nat_of_ascii c).

(** [str.isspace] on one ASCII character: TAB..CR, FS..US and the space. *)
Definition isspace (c : ascii) : bool :=
  let n := code c in
  ((9 <=? n) && (n <=? 13)) || ((28 <=? n) && (n <=? 32)).

Fixpoint lstrip (l : list ascii) : list ascii :=
  match l with
  | [] => []
  | c :: l' => if isspace c then lstrip l' else l
  end.

Definition rstrip (l : list ascii) : list ascii := rev (lstrip (rev l)).

(** [s.strip()] *)
Definition strip (s : string) : string := str (rstrip (lstrip (chars s))).

Definition lower_char (c : ascii) : ascii :=
  let n := code c in
  if (65 <=? n) && (n <=? 90) then ascii_of_nat (nat_of_ascii c + 32) else c.

(** [s.lower()] *)
Definition lower (s : string) : string := str (map lower_char (chars s)).

(** Truth value of a string: [not s] holds of the empty string only. *)
Definition truthy (s : string) : bool :=
  match s with EmptyString => false | _ => true end.

Definition is_digit (c : ascii) : bool :=
  let n := code c in (48 <=? n) && (n <=? 57).

Definition digit_val (c : ascii) : Z := code c - 48.

Definition is_underscore (c : ascii) : bool := (code c =? 95).

(** A digit part: decimal digits, single underscores allowed between two
    digits.  Returns the value and the number of digits read. *)
Fixpoint digitpart (acc : Z) (n : Z) (prev_digit : bool) (l : list ascii)
  : option (Z * Z) :=
  match l with
  | [] => if prev_digit then Some (acc, n) else None
  | c :: l' =>
      if is_digit c then digitpart (10 * acc + digit_val c) (n + 1) true l'
      else if is_underscore c && prev_digit then
        match l' with
        | [] => None
        | _ => digitpart acc n false l'
        end
      else None
  end.

(** The whitespace that [int] and [float] skip around an ASCII string:
    TAB..CR and the space. *)
Definition isspace_c (c : ascii) : bool :=
  let n := code c in ((9 <=? n) && (n <=? 13)) || (n =? 32).

Fixpoint skip_spaces (l : list ascii) : list ascii :=
  match l with
  | [] => []
  | c :: l' => if isspace_c c then skip_spaces l' else l
  end.

Definition trim_c (l : list ascii) : list ascii :=
  rev (skip_spaces (rev (skip_spaces l))).

(** An optional sign; [true] is the minus sign. *)
Definition split_sign (l : list ascii) : bool * list ascii :=
  match l with
  | c :: l' =>
      if code c =? 45 then (true, l')
      else if code c =? 43 then (false, l')
      else (false, l)
  | [] => (false, [])
  end.

(** [int(s)] for a string [s]: [None] is [ValueError], also raised for
    more digits than the conversion allows, 4300. *)
Definition int_of_string (s : string) : option Z :=
  let (neg, body) := split_sign (trim_c (chars s)) in
  match digitpart 0 0 false body with
  | Some (v, n) => if 4300 <? n then None else Some (if neg then - v else v)
  | None => None
  end.

(** *** Floats: IEEE 754 binary64 *)
Definition float := spec_float.
Definition prec : Z := 53.
Definition emax : Z := 1024.

Definition fadd : float -> float -> float := SFadd prec emax.
Definition fmul : float -> float -> float := SFmul prec emax.
Definition fzero : float := S754_zero false.

(** [x < 0.0] *)
Definition fnegative (x : float) : bool := SFltb x fzero.

(** Conversion of an [int] operand of a float operation, rounding to
    nearest even.  The integer columns of the store hold 64-bit values, for
    which the conversion never overflows. *)
Definition float_of_int (n : Z) : float := binary_normalize prec emax n 0 false.

(** The float nearest to [m * 10^e], with the sign [neg]. *)
Definition float_of_decimal (neg : bool) (m : Z) (e : Z) : float :=
  match m with
  | Zpos p =>
      if 0 <=? e then
        binary_normalize prec emax ((if neg then -1 else 1) * (m * 10 ^ e)) 0 false
      else
        SFdiv prec emax (S754_finite neg p 0)
                        (S754_finite false (Z.to_pos (10 ^ (- e))) 0)
  | _ => S754_zero neg
  end.

(** Longest prefix of digits and underscores, and the rest. *)
Fixpoint span_digits (l : list ascii) : list ascii * list ascii :=
  match l with
  | c :: l' =>
      if is_digit c || is_underscore c then
        let (a, b) := span_digits l' in (c :: a, b)
      else ([], l)
  | [] => ([], [])
  end.

(** An empty digit part reads as zero with no digit. *)
Definition digitpart_opt (l : list ascii) : option (Z * Z) :=
  match l with
  | [] => Some (0, 0)
  | _ => digitpart 0 0 false l
  end.

(** The exponent suffix: nothing, or [e], an optional sign and a digit part. *)
Definition exponent (l : list ascii) : option Z :=
  match l with
  | [] => Some 0
  | c :: l' =>
      if (code c =? 101) || (code c =? 69) then
        let (neg, body) := split_sign l' in
        match digitpart 0 0 false body with
        | Some (v, _) => Some (if neg then - v else v)
        | None => None
        end
      else None
  end.

(** [number ::= [digitpart] "." digitpart | digitpart ["."]], then the
    exponent. *)
Definition decimal (neg : bool) (l : list ascii) : option float :=
  let (ip, rest) := span_digits l in
  let (fp, rest') :=
    match rest with
    | c :: r => if code c =? 46 then span_digits r else ([], rest)
    | [] => ([], [])
    end in
  match ip, fp with
  | [], [] => None
  | _, _ =>
      match digitpart_opt ip, digitpart_opt fp, exponent rest' with
      | Some (iv, _), Some (fv, fn), Some ex =>
          Some (float_of_decimal neg (iv * 10 ^ fn + fv) (ex - fn))
      | _, _, _ => None
      end
  end.

(** [float(s)] for a string [s]: [None] is [ValueError]. *)
Definition float_of_string (s : string) : option float :=
  let (neg, body) := split_sign (trim_c (chars s)) in
  let word := str (map lower_char body) in
  if String.eqb word "inf" || String.eqb word "infinity"
  then Some (S754_infinity neg)
  else if String.eqb word "nan" then Some S754_nan
  else decimal neg body.

End Py.

(** ** SQL operators the queries compile to *)
Module Sql.

(** Character comparison of [LIKE]: ASCII letters compare without case. *)
Definition like_char (c d : ascii) : bool :=
  Ascii.eqb (Py.lower_char c) (Py.lower_char d).

Definition is_percent (c : ascii) : bool := (Py.code c =? 37).

(** [text LIKE pattern]: [%] stands for any run of characters, [_] for any
    one character; there is no escape character. *)
Fixpoint like (pattern text : list ascii) {struct pattern} : bool :=
  match pattern with
  | [] => match text with [] => true | _ => false end
  | c :: pattern' =>
      if is_percent c then
        (fix any_run (t : list ascii) : bool :=
           like pattern' t ||
           match t with
           | [] => false
           | _ :: t' => any_run t'
           end) text
      else
        match text with
        | [] => false
        | d :: text' =>
            (Py.is_underscore c || like_char c d) && like pattern' text'
        end
  end.

(** [column.ilike(pattern)], rendered as [lower(column) LIKE lower(pattern)]. *)
Definition ilike (column pattern : string) : bool :=
  like (Py.chars (Py.lower pattern)) (Py.chars (Py.lower column)).

(** Rowid given to a new row of a table whose rows have the rowids [ids]:
    one more than the largest. *)
Definition next_id (ids : list Z) : Z := 1 + fold_right Z.max 0 ids.

(** An [INTEGER] column holds 64-bit signed values. *)
Definition fits_int64 (n : Z) : bool := (- 2 ^ 63 <=? n) && (n <? 2 ^ 63).

(** The bind of a Python [int] to a statement: [None] is the
    [OverflowError] of an [int] that does not fit. *)
Definition bind_integer (n : Z) : option Z :=
  if fits_int64 n then Some n else None.

(** What a [NOT NULL] float column holds after [x] is written to it: a NaN
    is bound as [NULL], which the column refuses, [None]; the zero is read
    back without its sign. *)
Definition real_column (x : Py.float) : option Py.float :=
  match x with
  | S754_nan => None
  | S754_zero _ => Some (S754_zero false)
  | _ => Some x
  end.

End Sql.

(** ** Constants *)
Definition CATEGORIES : list string :=
  [ "Clothing"; "Electronics"; "Home & Kitchen"; "Books";
    "Furniture"; "Sports"; "Toys"; "Other" ].

Definition PLACEHOLDER_IMG : string := "https://placehold.co/600x400?text=EcoFinds".

(** [x in CATEGORIES] *)
Definition in_categories (x : string) : bool := existsb (String.eqb x) CATEGORIES.

(** ** Models *)
Module User.
Record t := mk
  { id : Z;
    email : string;
    password_hash : string;
    username : string }.
End User.

Module Product.
Record t := mk
  { id : Z;
    title : string;
    description : string;
    category : string;
    price : Py.float;
    image_url : option string;
    created_at : Z;
    seller_id : Z }.

(** [Product.image] *)
Definition image (p : t) : string :=
  match image_url p with
  | Some u => if Py.truthy u then Py.strip u else PLACEHOLDER_IMG
  | None => PLACEHOLDER_IMG
  end.
End Product.

Module CartItem.
Record t := mk
  { id : Z;
    quantity : Z;
    user_id : Z;
    product_id : Z }.
End CartItem.

Module Order.
Record t := mk
  { id : Z;
    created_at : Z;
    total_amount : Py.float;
    user_id : Z }.
End Order.

Module OrderItem.
Record t := mk
  { id : Z;
    order_id : Z;
    product_title : string;
    product_price : Py.float;
    quantity : Z;
    product_category : string;
    product_image_url : option string }.
End OrderItem.

(** The database: one list of rows per table. *)
Record Store := mkStore
  { users : list User.t;
    products : list Product.t;
    cart_items : list CartItem.t;
    orders : list Order.t;
    order_items : list OrderItem.t }.

Definition empty_store : Store := mkStore [] [] [] [] [].

(** ** Requests and responses *)

(** [request.form] and [request.args]: the first value of a key counts. *)
Definition Form := list (string * string).

Fixpoint form_lookup (f : Form) (key : string) : option string :=
  match f with
  | [] => None
  | (k, v) :: f' => if String.eqb k key then Some v else form_lookup f' key
  end.

(** [request.form.get(key, "")] *)
Definition form_get (f : Form) (key : string) : string :=
  match form_lookup f key with
  | Some v => v
  | None => ""
  end.

Inductive endpoint :=
| ep_index | ep_register | ep_login | ep_dashboard | ep_add_product
| ep_cart | ep_purchases.

Inductive exn := ValueError | AttributeError | OverflowError | IntegrityError.

(** What a POST handler answers: a flashed message with its category and a
    redirect, the 404 of [get_or_404], or an exception that nothing catches. *)
Inductive response :=
| Redirect (message category : string) (target : endpoint)
| Abort404
| Raise (e : exn).

(** The error kinds of the specification. *)
Inductive error_kind :=
| ValidationError | AuthError | AuthorizationError | NotFoundError | ConflictError.

(** The error kind a response stands for; [None] for a success and for an
    unhandled exception, which is none of the kinds. *)
Definition error_of (r : response) : option error_kind :=
  match r with
  | Redirect m c _ =>
      if negb (String.eqb c "error") then None
      else if String.eqb m "Not authorized." then Some AuthorizationError
      else if String.eqb m "Invalid credentials." then Some AuthError
      else if String.eqb m "Email already registered." then Some ConflictError
      else Some ValidationError
  | Abort404 => Some NotFoundError
  | Raise _ => None
  end.

(** [werkzeug.security]: the hash of a password under a fresh salt, and the
    check of a password against a hash. *)
Class PasswordHasher := mkHasher
  { generate_password_hash : string -> string -> string;
    check_password_hash : string -> string -> bool }.

(** The contract of the two functions: a password passes the check against
    its own hash. *)
Definition hasher_ok (H : PasswordHasher) : Prop :=
  forall salt password,
    check_password_hash (generate_password_hash salt password) password = true.

(** ** Queries *)

(** [Product.query.get(pid)] *)
Definition get_product (pid : Z) (s : Store) : option Product.t :=
  find (fun p => Product.id p =? pid) (products s).

(** [CartItem.query.get(item_id)] *)
Definition get_cart_item (item_id : Z) (s : Store) : option CartItem.t :=
  find (fun i => CartItem.id i =? item_id) (cart_items s).

(** [User.query.filter_by(email=email).first()] *)
Definition user_by_email (email : string) (s : Store) : option User.t :=
  find (fun u => String.eqb (User.email u) email) (users s).

(** [CartItem.query.filter_by(user_id=uid).all()] *)
Definition cart_of (uid : Z) (s : Store) : list CartItem.t :=
  filter (fun i => CartItem.user_id i =? uid) (cart_items s).

(** [CartItem.query.filter_by(user_id=uid, product_id=pid).first()] *)
Definition same_line (uid pid : Z) (i : CartItem.t) : bool :=
  (CartItem.user_id i =? uid) && (CartItem.product_id i =? pid).

Definition cart_line (uid pid : Z) (s : Store) : option CartItem.t :=
  find (same_line uid pid) (cart_items s).

(** [ORDER BY created_at DESC]: rows of equal time keep their rowid order. *)
Fixpoint insert_desc (p : Product.t) (l : list Product.t) : list Product.t :=
  match l with
  | [] => [p]
  | q :: l' =>
      if Product.created_at q <=? Product.created_at p
      then p :: l
      else q :: insert_desc p l'
  end.

Definition order_by_created_at_desc (l : list Product.t) : list Product.t :=
  fold_right insert_desc [] l.

(** ** Routes *)

(** [index]: the products handed to the template. *)
Definition index (args : Form) (s : Store) : list Product.t :=
  let q := Py.strip (form_get args "q") in
  let cat := Py.strip (form_get args "category") in
  let query := order_by_created_at_desc (products s) in
  let query :=
    if Py.truthy q
    then filter (fun p => Sql.ilike (Product.title p) (String.append "%" (String.append q "%"))) query
    else query in
  let query :=
    if Py.truthy cat && in_categories cat
    then filter (fun p => String.eqb (Product.category p) cat) query
    else query in
  query.

(** [register], POST.  [salt] is the salt drawn by [generate_password_hash].
    The second component is the user handed to [login_user]. *)
Definition register {H : PasswordHasher} (salt : string) (form : Form) (s : Store)
  : response * option User.t * Store :=
  let email := Py.lower (Py.strip (form_get form "email")) in
  let password := Py.strip (form_get form "password") in
  let username := Py.strip (form_get form "username") in
  if negb (Py.truthy email) || negb (Py.truthy password) || negb (Py.truthy username)
  then (Redirect "Please fill all fields." "error" ep_register, None, s)
  else
    match user_by_email email s with
    | Some _ => (Redirect "Email already registered." "error" ep_register, None, s)
    | None =>
        let user :=
          User.mk (Sql.next_id (map User.id (users s))) email
                  (generate_password_hash salt password) username in
        (Redirect "Welcome to EcoFinds!" "success" ep_dashboard, Some user,
         mkStore (users s ++ [user]) (products s) (cart_items s) (orders s)
                 (order_items s))
    end.

(** [login], POST. *)
Definition login {H : PasswordHasher} (form : Form) (s : Store)
  : response * option User.t * Store :=
  let email := Py.lower (Py.strip (form_get form "email")) in
  let password := Py.strip (form_get form "password") in
  match user_by_email email s with
  | Some user =>
      if check_password_hash (User.password_hash user) password
      then (Redirect "Logged in successfully." "success" ep_dashboard, Some user, s)
      else (Redirect "Invalid credentials." "error" ep_login, None, s)
  | None => (Redirect "Invalid credentials." "error" ep_login, None, s)
  end.

(** [image_url or PLACEHOLDER_IMG] *)
Definition image_or_placeholder (image_url : string) : string :=
  if Py.truthy image_url then image_url else PLACEHOLDER_IMG.

(** The routes below are behind [login_required]; [uid] is
    [current_user.id], [now] the value of [datetime.utcnow] at the insert. *)

(** [add_product], POST. *)
Definition add_product (uid : Z) (now : Z) (form : Form) (s : Store)
  : response * Store :=
  let title := Py.strip (form_get form "title") in
  let description := Py.strip (form_get form "description") in
  let category := Py.strip (form_get form "category") in
  let price := Py.strip (form_get form "price") in
  let image_url := Py.strip (form_get form "image_url") in
  if negb (Py.truthy title) || negb (Py.truthy description)
     || negb (in_categories category) || negb (Py.truthy price)
  then (Redirect "Please complete all fields correctly." "error" ep_add_product, s)
  else
    match Py.float_of_string price with
    | None => (Redirect "Price must be a number." "error" ep_add_product, s)
    | Some price =>
        match Sql.real_column price with
        | None => (Raise IntegrityError, s)
        | Some price =>
            let product :=
              Product.mk (Sql.next_id (map Product.id (products s)))
                         title description category price
                         (Some (image_or_placeholder image_url)) now uid in
            (Redirect "Product added." "success" ep_dashboard,
             mkStore (users s) (products s ++ [product]) (cart_items s) (orders s)
                     (order_items s))
        end
    end.

(** The row of [product] after the edit. *)
Definition edited (product : Product.t) (title description category : string)
  (price : Py.float) (image_url : string) : Product.t :=
  Product.mk (Product.id product) title description category price
             (Some (image_or_placeholder image_url))
             (Product.created_at product) (Product.seller_id product).

(** [UPDATE product ... WHERE id = ?] *)
Definition update_product (new : Product.t) (l : list Product.t) : list Product.t :=
  map (fun p => if Product.id p =? Product.id new then new else p) l.

(** [edit_product], POST. *)
Definition edit_product (uid : Z) (pid : Z) (form : Form) (s : Store)
  : response * Store :=
  match get_product pid s with
  | None => (Abort404, s)
  | Some product =>
      if negb (Product.seller_id product =? uid)
      then (Redirect "Not authorized." "error" ep_dashboard, s)
      else
        let title := Py.strip (form_get form "title") in
        let description := Py.strip (form_get form "description") in
        let category := Py.strip (form_get form "category") in
        let price := Py.strip (form_get form "price") in
        let image_url := Py.strip (form_get form "image_url") in
        if negb (Py.truthy title) || negb (Py.truthy description)
           || negb (in_categories category) || negb (Py.truthy price)
        then (Redirect "Please complete all fields correctly." "error" ep_dashboard, s)
        else
          match Py.float_of_string price with
          | None => (Redirect "Price must be a number." "error" ep_dashboard, s)
          | Some price =>
              match Sql.real_column price with
              | None => (Raise IntegrityError, s)
              | Some price =>
                  (Redirect "Product updated." "success" ep_dashboard,
                   mkStore (users s)
                           (update_product
                              (edited product title description category price
                                      image_url)
                              (products s))
                           (cart_items s) (orders s) (order_items s))
              end
          end
  end.

(** [delete_product], POST.  The delete is [DELETE FROM product WHERE id = ?]:
    [Product] has no relationship to the rows that refer to it, and the store
    does not check foreign keys. *)
Definition delete_product (uid : Z) (pid : Z) (s : Store) : response * Store :=
  match get_product pid s with
  | None => (Abort404, s)
  | Some product =>
      if negb (Product.seller_id product =? uid)
      then (Redirect "Not authorized." "error" ep_dashboard, s)
      else
        (Redirect "Product deleted." "info" ep_dashboard,
         mkStore (users s)
                 (filter (fun p => negb (Product.id p =? Product.id product))
                         (products s))
                 (cart_items s) (orders s) (order_items s))
  end.

(** [int(request.form.get("quantity", 1))]: [None] is [ValueError]. *)
Definition form_quantity (form : Form) : option Z :=
  match form_lookup form "quantity" with
  | Some v => Py.int_of_string v
  | None => Some 1
  end.

(** [UPDATE cart_item SET quantity = ? WHERE id = ?] *)
Definition set_quantity (item_id : Z) (quantity : Z) (l : list CartItem.t)
  : list CartItem.t :=
  map (fun i =>
         if CartItem.id i =? item_id
         then CartItem.mk (CartItem.id i) quantity (CartItem.user_id i)
                          (CartItem.product_id i)
         else i) l.

(** [cart_add], POST. *)
Definition cart_add (uid : Z) (pid : Z) (form : Form) (s : Store)
  : response * Store :=
  match get_product pid s with
  | None => (Abort404, s)
  | Some product =>
      let existing := cart_line uid (Product.id product) s in
      match form_quantity form with
      | None => (Raise ValueError, s)
      | Some qty =>
          let quantity :=
            match existing with
            | Some e => CartItem.quantity e + Z.max 1 qty
            | None => Z.max 1 qty
            end in
          match Sql.bind_integer quantity with
          | None => (Raise OverflowError, s)
          | Some quantity =>
              let items :=
                match existing with
                | Some e => set_quantity (CartItem.id e) quantity (cart_items s)
                | None =>
                    cart_items s ++
                    [CartItem.mk (Sql.next_id (map CartItem.id (cart_items s)))
                                 quantity uid (Product.id product)]
                end in
              (Redirect "Added to cart." "success" ep_cart,
               mkStore (users s) (products s) items (orders s) (order_items s))
          end
      end
  end.

(** [cart_update], POST. *)
Definition cart_update (uid : Z) (item_id : Z) (form : Form) (s : Store)
  : response * Store :=
  match get_cart_item item_id s with
  | None => (Abort404, s)
  | Some item =>
      if negb (CartItem.user_id item =? uid)
      then (Redirect "Not authorized." "error" ep_cart, s)
      else
        match form_quantity form with
        | None => (Raise ValueError, s)
        | Some qty =>
            match Sql.bind_integer (Z.max 1 qty) with
            | None => (Raise OverflowError, s)
            | Some quantity =>
                (Redirect "Cart updated." "success" ep_cart,
                 mkStore (users s) (products s)
                         (set_quantity (CartItem.id item) quantity (cart_items s))
                         (orders s) (order_items s))
            end
        end
  end.

(** [cart_remove], POST. *)
Definition cart_remove (uid : Z) (item_id : Z) (s : Store) : response * Store :=
  match get_cart_item item_id s with
  | None => (Abort404, s)
  | Some item =>
      if negb (CartItem.user_id item =? uid)
      then (Redirect "Not authorized." "error" ep_cart, s)
      else
        (Redirect "Item removed." "info" ep_cart,
         mkStore (users s) (products s)
                 (filter (fun i => negb (CartItem.id i =? CartItem.id item))
                         (cart_items s))
                 (orders s) (order_items s))
  end.

(** The [OrderItem] built from a cart line and its product. *)
Definition snapshot (oi_id order_id : Z) (item : CartItem.t) (p : Product.t)
  : OrderItem.t :=
  OrderItem.mk oi_id order_id (Product.title p) (Product.price p)
               (CartItem.quantity item) (Product.category p)
               (Some (Product.image p)).

(** [item.product.price * item.quantity] *)
Definition line_amount (item : CartItem.t) (p : Product.t) : Py.float :=
  Py.fmul (Product.price p) (Py.float_of_int (CartItem.quantity item)).

(** The loop of [checkout] over the cart lines: the running total and the
    order items added, the first of them with rowid [oi_id].  [item.product]
    is [None] when no product has the line's [product_id]; reading its price
    then raises [AttributeError], here [None]. *)
Fixpoint checkout_loop (s : Store) (order_id : Z) (oi_id : Z)
  (items : list CartItem.t) (total : Py.float)
  : option (Py.float * list OrderItem.t) :=
  match items with
  | [] => Some (total, [])
  | item :: rest =>
      match get_product (CartItem.product_id item) s with
      | None => None
      | Some p =>
          match checkout_loop s order_id (oi_id + 1) rest
                              (Py.fadd total (line_amount item p)) with
          | Some (t, ois) => Some (t, snapshot oi_id order_id item p :: ois)
          | None => None
          end
      end
  end.

(** [DELETE FROM cart_item WHERE id = ?], once per line of [items]. *)
Definition delete_cart_items (items : list CartItem.t) (l : list CartItem.t)
  : list CartItem.t :=
  filter (fun i => negb (existsb (Z.eqb (CartItem.id i)) (map CartItem.id items))) l.

(** [checkout], POST. *)
Definition checkout (uid : Z) (now : Z) (s : Store) : response * Store :=
  match cart_of uid s with
  | [] => (Redirect "Your cart is empty." "error" ep_cart, s)
  | items =>
      let order_id := Sql.next_id (map Order.id (orders s)) in
      match checkout_loop s order_id
                          (Sql.next_id (map OrderItem.id (order_items s)))
                          items Py.fzero with
      | None => (Raise AttributeError, s)
      | Some (total, ois) =>
          (Redirect "Purchase complete!" "success" ep_purchases,
           mkStore (users s) (products s)
                   (delete_cart_items items (cart_items s))
                   (orders s ++ [Order.mk order_id now total uid])
                   (order_items s ++ ois))
      end
  end.

(** ** The properties' vocabulary *)

(** The quantity that [cart_add] writes for a quantity field read as [q]. *)
Definition added_quantity (uid pid q : Z) (s : Store) : Z :=
  match cart_line uid pid s with
  | Some e => CartItem.quantity e + Z.max 1 q
  | None => Z.max 1 q
  end.






(** Newest first. *)
Definition newest_first (l : list Product.t) : Prop :=
  StronglySorted (fun p q => Product.created_at q <= Product.created_at p) l.


(** The sum of [product_price * quantity] over order items, from [0.0]. *)
Definition order_items_total (ois : list OrderItem.t) : Py.float :=
  fold_left
    (fun acc oi =>
       Py.fadd acc (Py.fmul (OrderItem.product_price oi)
                            (Py.float_of_int (OrderItem.quantity oi))))
    ois Py.fzero.



(** An edit or a delete of a product, by any user. *)
Inductive catalog_op :=
| Edit (uid pid : Z) (form : Form)
| Delete (uid pid : Z).

Definition run_op (op : catalog_op) (s : Store) : Store :=
  match op with
  | Edit uid pid form => snd (edit_product uid pid form s)
  | Delete uid pid => snd (delete_product uid pid s)
  end.

Definition run_ops (ops : list catalog_op) (s : Store) : Store :=
  fold_left (fun s op => run_op op s) ops s.

(** A hasher to run the handlers with: the hash is the password itself. *)
Definition plain_hasher : PasswordHasher :=
  mkHasher (fun salt password => password) String.eqb.

(** A store the handlers reach from the empty one: two users register, the
    first lists two products, the second puts the first product in the cart. *)
Definition ann_form : Form :=
  [("email", " Ann@Example.org "); ("password", "pw-ann"); ("username", "ann")].

Definition bob_form : Form :=
  [("email", "bob@example.org"); ("password", "pw-bob"); ("username", "bob")].

Definition kindle_form : Form :=
  [("title", "Kindle Paperwhite"); ("description", "2019 model, works perfectly.");
   ("category", "Electronics"); ("price", "65.00"); ("image_url", "")].

Definition lamp_form : Form :=
  [("title", "IKEA Lamp"); ("description", "Minimal bedside lamp.");
   ("category", "Home & Kitchen"); ("price", "12.5"); ("image_url", "")].

Definition demo_store : Store :=
  let s := snd (register (H := plain_hasher) "salt" ann_form empty_store) in
  let s := snd (register (H := plain_hasher) "salt" bob_form s) in
  let s := snd (add_product 1 100 kindle_form s) in
  let s := snd (add_product 1 200 lamp_form s) in
  snd (cart_add 2 1 [("quantity", "1")] s).

(** The row of the first product of [demo_store]. *)
Definition kindle : Product.t :=
  Product.mk 1 "Kindle Paperwhite" "2019 model, works perfectly." "Electronics"
             (S754_finite false 4573968371548160 (-46))
             (Some PLACEHOLDER_IMG) 100 1.

(** The row of the second product of [demo_store]. *)
Definition lamp : Product.t :=
  Product.mk 2 "IKEA Lamp" "Minimal bedside lamp." "Home & Kitchen"
             (S754_finite false 7036874417766400 (-49))
             (Some PLACEHOLDER_IMG) 200 1.

(** The store after the first user deletes the product that is in the
    second user's cart. *)
Definition orphaned_store : Store := snd (delete_product 1 1 demo_store).

(** A listing with a price below zero. *)
Definition refund_form : Form :=
  [("title", "Broken Chair"); ("description", "Take it away.");
   ("category", "Furniture"); ("price", "-5"); ("image_url", "")].

(** ** The other routes *)

(** [UPDATE user SET username = ? WHERE id = ?] *)
Definition set_username (uid : Z) (username : string) (l : list User.t)
  : list User.t :=
  map (fun u =>
         if User.id u =? uid
         then User.mk (User.id u) (User.email u) (User.password_hash u) username
         else u) l.

(** [dashboard], POST: the profile update. *)
Definition dashboard_post (uid : Z) (form : Form) (s : Store) : response * Store :=
  let username := Py.strip (form_get form "username") in
  if Py.truthy username
  then (Redirect "Profile updated." "success" ep_dashboard,
        mkStore (set_username uid username (users s)) (products s)
                (cart_items s) (orders s) (order_items s))
  else (Redirect "Username cannot be empty." "error" ep_dashboard, s).

(** [dashboard], GET: [my_products]. *)
Definition dashboard_get (uid : Z) (s : Store) : list Product.t :=
  order_by_created_at_desc
    (filter (fun p => Product.seller_id p =? uid) (products s)).


(** [ORDER BY created_at DESC] on orders. *)
Fixpoint insert_order_desc (o : Order.t) (l : list Order.t) : list Order.t :=
  match l with
  | [] => [o]
  | q :: l' =>
      if Order.created_at q <=? Order.created_at o
      then o :: l
      else q :: insert_order_desc o l'
  end.

(** [purchases]: the orders handed to the template. *)
Definition purchases (uid : Z) (s : Store) : list Order.t :=
  fold_right insert_order_desc []
             (filter (fun o => Order.user_id o =? uid) (orders s)).


(** The sample rows of [init_db]. *)
Definition DEMO_EMAIL : string := "demo@ecofinds.app".

Definition samples : list (string * string * string * Py.float * string) :=
  [ ("Vintage Denim Jacket", "Classic blue denim jacket in great condition.",
     "Clothing", Py.float_of_decimal false 2999 (-2), "");
    ("Kindle Paperwhite", "2019 model, works perfectly.",
     "Electronics", Py.float_of_decimal false 650 (-1), "");
    ("IKEA Lamp", "Minimal bedside lamp.",
     "Home & Kitchen", Py.float_of_decimal false 125 (-1), "");
    ("Dumbbell Set", "Pair of 10lb dumbbells.",
     "Sports", Py.float_of_decimal false 250 (-1), "") ].

(** The loop of [init_db] over the samples; [clock n] is the time of the
    insert of the sample of index [n]. *)
Fixpoint seed (seller : Z) (clock : Z -> Z) (n : Z)
  (rows : list (string * string * string * Py.float * string))
  (l : list Product.t) : list Product.t :=
  match rows with
  | [] => l
  | (t, d, c, p, img) :: rows' =>
      seed seller clock (n + 1) rows'
           (l ++ [Product.mk (Sql.next_id (map Product.id l)) t d c p
                             (Some (image_or_placeholder img)) (clock n) seller])
  end.

(** [init_db], the CLI command.  The tables exist already. *)
Definition init_db {H : PasswordHasher} (salt : string) (clock : Z -> Z) (s : Store)
  : Store :=
  let s1 :=
    match user_by_email DEMO_EMAIL s with
    | Some _ => s
    | None =>
        mkStore (users s ++
                 [User.mk (Sql.next_id (map User.id (users s))) DEMO_EMAIL
                          (generate_password_hash salt "demo123") "demo"])
                (products s) (cart_items s) (orders s) (order_items s)
    end in
  if Z.of_nat (List.length (products s1)) =? 0
  then
    match user_by_email DEMO_EMAIL s1 with
    | Some demo =>
        mkStore (users s1) (seed (User.id demo) clock 0 samples (products s1))
                (cart_items s1) (orders s1) (order_items s1)
    | None => s1
    end
  else s1.

(** ** Requests *)

(** One request of a user, or a run of the CLI command. *)
Inductive request :=
| Register (salt : string) (form : Form)
| Login (form : Form)
| DashboardPost (uid : Z) (form : Form)
| AddProduct (uid now : Z) (form : Form)
| EditProduct (uid pid : Z) (form : Form)
| DeleteProduct (uid pid : Z)
| CartAdd (uid pid : Z) (form : Form)
| CartUpdate (uid item_id : Z) (form : Form)
| CartRemove (uid item_id : Z)
| Checkout (uid now : Z)
| InitDb (salt : string) (clock : Z -> Z).

(** The store after a request. *)
Definition handle {H : PasswordHasher} (r : request) (s : Store) : Store :=
  match r with
  | Register salt form => snd (register salt form s)
  | Login form => snd (login form s)
  | DashboardPost uid form => snd (dashboard_post uid form s)
  | AddProduct uid now form => snd (add_product uid now form s)
  | EditProduct uid pid form => snd (edit_product uid pid form s)
  | DeleteProduct uid pid => snd (delete_product uid pid s)
  | CartAdd uid pid form => snd (cart_add uid pid form s)
  | CartUpdate uid item_id form => snd (cart_update uid item_id form s)
  | CartRemove uid item_id => snd (cart_remove uid item_id s)
  | Checkout uid now => snd (checkout uid now s)
  | InitDb salt clock => init_db salt clock s
  end.

(** ** Invariants of the store *)

(** The rowids of every table are distinct. *)
Definition keys_ok (s : Store) : Prop :=
  NoDup (map User.id (users s)) /\
  NoDup (map Product.id (products s)) /\
  NoDup (map CartItem.id (cart_items s)) /\
  NoDup (map Order.id (orders s)) /\
  NoDup (map OrderItem.id (order_items s)).

(** An email as [register] stores it: trimmed and in lower case. *)
Definition normal_email (e : string) : Prop := Py.lower (Py.strip e) = e.

(** No two users share an email, and every email is normal. *)
Definition emails_ok (s : Store) : Prop :=
  NoDup (map User.email (users s)) /\
  Forall (fun u => normal_email (User.email u)) (users s).

(** A string that is not empty and has no surrounding whitespace. *)
Definition stripped (x : string) : bool :=
  Py.truthy x && String.eqb (Py.strip x) x.

(** A product as the forms let it in. *)
Definition valid_product (p : Product.t) : bool :=
  stripped (Product.title p) && stripped (Product.description p)
  && in_categories (Product.category p)
  && match Product.image_url p with
     | Some u => stripped u
     | None => false
     end.

Definition catalog_ok (s : Store) : Prop :=
  Forall (fun p => valid_product p = true) (products s).

(** Every cart line has a quantity of one at least, and a user has one
    line per product at most. *)
Definition cart_ok (s : Store) : Prop :=
  Forall (fun i => 1 <= CartItem.quantity i) (cart_items s) /\
  NoDup (map (fun i => (CartItem.user_id i, CartItem.product_id i)) (cart_items s)).


(** One write to the tables, with what the handlers make sure of. *)
Inductive write (s : Store) : Store -> Prop :=
| w_insert_user u :
    User.id u = Sql.next_id (map User.id (users s)) ->
    user_by_email (User.email u) s = None ->
    normal_email (User.email u) ->
    write s (mkStore (users s ++ [u]) (products s) (cart_items s) (orders s)
                     (order_items s))
| w_rename uid username :
    write s (mkStore (set_username uid username (users s)) (products s)
                     (cart_items s) (orders s) (order_items s))
| w_insert_product p :
    Product.id p = Sql.next_id (map Product.id (products s)) ->
    valid_product p = true ->
    write s (mkStore (users s) (products s ++ [p]) (cart_items s) (orders s)
                     (order_items s))
| w_update_product p :
    valid_product p = true ->
    write s (mkStore (users s) (update_product p (products s)) (cart_items s)
                     (orders s) (order_items s))
| w_delete_products f :
    write s (mkStore (users s) (filter f (products s)) (cart_items s) (orders s)
                     (order_items s))
| w_insert_line i :
    CartItem.id i = Sql.next_id (map CartItem.id (cart_items s)) ->
    1 <= CartItem.quantity i ->
    cart_line (CartItem.user_id i) (CartItem.product_id i) s = None ->
    write s (mkStore (users s) (products s) (cart_items s ++ [i]) (orders s)
                     (order_items s))
| w_set_quantity e q :
    In e (cart_items s) ->
    (1 <= CartItem.quantity e -> 1 <= q) ->
    write s (mkStore (users s) (products s)
                     (set_quantity (CartItem.id e) q (cart_items s)) (orders s)
                     (order_items s))
| w_delete_lines f :
    write s (mkStore (users s) (products s) (filter f (cart_items s)) (orders s)
                     (order_items s))
| w_place_order o ois :
    Order.id o = Sql.next_id (map Order.id (orders s)) ->
    Forall (fun oi => OrderItem.order_id oi = Order.id o) ois ->
    Forall (fun oi => Sql.next_id (map OrderItem.id (order_items s))
                      <= OrderItem.id oi) ois ->
    NoDup (map OrderItem.id ois) ->
    Order.total_amount o = order_items_total ois ->
    write s (mkStore (users s) (products s) (cart_items s) (orders s ++ [o])
                     (order_items s ++ ois)).

(** Any number of writes, one after the other. *)
Inductive writes (s : Store) : Store -> Prop :=
| ws_none : writes s s
| ws_more s1 s2 : writes s s1 -> write s1 s2 -> writes s s2.

(** The store after a list of requests, the first of the list first. *)
Definition run {H : PasswordHasher} (rs : list request) (s : Store) : Store :=
  fold_left (fun s r => handle r s) rs s.


(** Newest first, for orders. *)
Definition newest_order_first (l : list Order.t) : Prop :=
  StronglySorted (fun o q => Order.created_at q <= Order.created_at o) l.

(** The response of the routes that end in a 404 or reject a stranger. *)
Definition not_authorized (target : endpoint) : response :=
  Redirect "Not authorized." "error" target.

(** [demo_store] after the first user puts the second product in the cart,
    the form without a quantity. *)
Definition busy_store : Store := snd (cart_add 1 2 [] demo_store).

(** * Properties *)

(** A fact about every character, by cases on its eight bits. *)
Ltac each_char c :=
  destruct c as [b0 b1 b2 b3 b4 b5 b6 b7];
  destruct b0, b1, b2, b3, b4, b5, b6, b7; reflexivity.


(** ** Lookups *)

Lemma get_product_id pid s p :
  get_product pid s = Some p -> Product.id p = pid.
Proof.
  unfold get_product. intros E. apply find_some in E.
  destruct E as [_ E]. now apply Z.eqb_eq in E.
Qed.

Lemma get_cart_item_id item_id s item :
  get_cart_item item_id s = Some item -> CartItem.id item = item_id.
Proof.
  unfold get_cart_item. intros E. apply find_some in E.
  destruct E as [_ E]. now apply Z.eqb_eq in E.
Qed.

Lemma neqb_true (a b : Z) : a <> b -> negb (a =? b) = true.
Proof. intros N. apply Z.eqb_neq in N. now rewrite N. Qed.

(** Every rowid of a table is below the next one. *)
Lemma next_id_above ids i : In i ids -> i < Sql.next_id ids.
Proof.
  unfold Sql.next_id. induction ids as [|j ids IH]; cbn [fold_right In]; [easy|].
  intros [->|Hin]; [lia|]. specialize (IH Hin). lia.
Qed.

Lemma next_id_fresh ids : ~ In (Sql.next_id ids) ids.
Proof. intros Hin. apply next_id_above in Hin. lia. Qed.

(** ** Checkout of an empty cart *)

(** C9: with no cart line of the user, [checkout] flashes the empty-cart
    error, a validation error, and returns the store as it was: no order and
    no order item is created. *)
Theorem checkout_empty_cart uid now s :
  cart_of uid s = [] ->
  checkout uid now s = (Redirect "Your cart is empty." "error" ep_cart, s) /\
  error_of (fst (checkout uid now s)) = Some ValidationError /\
  orders (snd (checkout uid now s)) = orders s /\
  order_items (snd (checkout uid now s)) = order_items s.
Proof.
  intros E. unfold checkout. rewrite E. repeat split.
Qed.

Lemma checkout_empty_cart_witness :
  cart_of 1 demo_store = [] /\
  checkout 1 300 demo_store
  = (Redirect "Your cart is empty." "error" ep_cart, demo_store).
Proof.
  split; [reflexivity|].
  apply (checkout_empty_cart 1 300 demo_store). reflexivity.
Defined.

(** ** Ownership of products *)

(** C6: when the product exists and its seller is another user,
    [edit_product] and [delete_product] answer "Not authorized.", an
    authorization error, and return the store as it was; the product is
    still there, every field as before. *)
Theorem non_owner_is_refused uid pid form s p :
  get_product pid s = Some p ->
  Product.seller_id p <> uid ->
  edit_product uid pid form s
  = (Redirect "Not authorized." "error" ep_dashboard, s) /\
  delete_product uid pid s
  = (Redirect "Not authorized." "error" ep_dashboard, s) /\
  error_of (fst (edit_product uid pid form s)) = Some AuthorizationError /\
  error_of (fst (delete_product uid pid s)) = Some AuthorizationError /\
  get_product pid (snd (edit_product uid pid form s)) = Some p /\
  get_product pid (snd (delete_product uid pid s)) = Some p.
Proof.
  intros E N. unfold edit_product, delete_product.
  rewrite E, (neqb_true _ _ N). simpl. repeat split; exact E.
Qed.

Lemma non_owner_is_refused_witness :
  edit_product 2 1 lamp_form demo_store
  = (Redirect "Not authorized." "error" ep_dashboard, demo_store) /\
  delete_product 2 1 demo_store
  = (Redirect "Not authorized." "error" ep_dashboard, demo_store).
Proof.
  assert (N : Product.seller_id kindle <> 2) by (vm_compute; discriminate).
  destruct (non_owner_is_refused 2 1 lamp_form demo_store kindle eq_refl N)
    as [A [B _]].
  split; assumption.
Defined.

(** ** Order history is a frame of the catalog operations *)

Lemma edit_product_orders uid pid form s :
  orders (snd (edit_product uid pid form s)) = orders s /\
  order_items (snd (edit_product uid pid form s)) = order_items s.
Proof.
  unfold edit_product.
  destruct (get_product pid s); [|now split].
  destruct (negb _); [now split|].
  destruct (_ || _); [now split|].
  destruct (Py.float_of_string _) as [x|]; [|now split].
  destruct (Sql.real_column x); now split.
Qed.

Lemma delete_product_orders uid pid s :
  orders (snd (delete_product uid pid s)) = orders s /\
  order_items (snd (delete_product uid pid s)) = order_items s.
Proof.
  unfold delete_product.
  destruct (get_product pid s); [|now split].
  destruct (negb _); now split.
Qed.

Lemma run_ops_orders ops : forall s,
  orders (run_ops ops s) = orders s /\
  order_items (run_ops ops s) = order_items s.
Proof.
  unfold run_ops. induction ops as [|op ops IH]; intros s; [now split|].
  cbn [fold_left]. destruct (IH (run_op op s)) as [A B]. rewrite A, B.
  destruct op; [apply edit_product_orders | apply delete_product_orders].
Qed.

(** C5: whatever edits and deletes of products follow a checkout, by
    whatever users, the orders (with their totals) and the order items (with
    their title, price, category, image and quantity) stay as the checkout
    left them. *)
Theorem order_history_is_frozen uid now s ops :
  orders (run_ops ops (snd (checkout uid now s)))
  = orders (snd (checkout uid now s)) /\
  order_items (run_ops ops (snd (checkout uid now s)))
  = order_items (snd (checkout uid now s)).
Proof. apply run_ops_orders. Qed.

(** ** Quantities that are not integers *)




(** ** Adding to the cart *)

Section CartAdd.

Variables uid pid : Z.

Lemma find_app_none (A : Type) (f : A -> bool) (l l' : list A) :
  find f l = None -> find f (l ++ l') = find f l'.
Proof.
  induction l as [|a l IH]; cbn; [easy|].
  destruct (f a); [discriminate | exact IH].
Qed.

Lemma find_none_filter (A : Type) (f : A -> bool) (l : list A) :
  find f l = None -> filter f l = [].
Proof.
  induction l as [|a l IH]; cbn; [easy|].
  destruct (f a); [discriminate | exact IH].
Qed.

Lemma find_set_quantity e q l :
  find (same_line uid pid) l = Some e ->
  find (same_line uid pid) (set_quantity (CartItem.id e) q l)
  = Some (CartItem.mk (CartItem.id e) q uid pid).
Proof.
  induction l as [|i l IH]; cbn; [discriminate|].
  destruct (same_line uid pid i) eqn:M.
  - intros [= ->]. rewrite Z.eqb_refl. unfold same_line in *. cbn.
    apply andb_prop in M. destruct M as [U P].
    apply Z.eqb_eq in U. apply Z.eqb_eq in P. rewrite U, P, !Z.eqb_refl.
    reflexivity.
  - intros E. destruct (CartItem.id i =? CartItem.id e).
    + unfold same_line in *. cbn. rewrite M. now apply IH.
    + rewrite M. now apply IH.
Qed.

Lemma set_quantity_other item_id q l i :
  In i l -> CartItem.id i <> item_id -> In i (set_quantity item_id q l).
Proof.
  intros Hin N. unfold set_quantity. apply in_map_iff. exists i.
  apply Z.eqb_neq in N. now rewrite N.
Qed.

Lemma set_quantity_fresh item_id q l :
  ~ In item_id (map CartItem.id l) -> set_quantity item_id q l = l.
Proof.
  induction l as [|i l IH]; cbn; [easy|]. intros N.
  destruct (CartItem.id i =? item_id) eqn:E.
  - apply Z.eqb_eq in E. elim N. now left.
  - f_equal. apply IH. intros Hin. apply N. now right.
Qed.

(** The store after a [cart_add], by the cases of the handler. *)
Lemma cart_add_items form s p q :
  get_product pid s = Some p ->
  form_quantity form = Some q ->
  Sql.fits_int64 (added_quantity uid pid q s) = true ->
  cart_add uid pid form s
  = (Redirect "Added to cart." "success" ep_cart,
     mkStore (users s) (products s)
             match cart_line uid pid s with
             | Some e =>
                 set_quantity (CartItem.id e)
                              (CartItem.quantity e + Z.max 1 q) (cart_items s)
             | None =>
                 cart_items s ++
                 [CartItem.mk (Sql.next_id (map CartItem.id (cart_items s)))
                              (Z.max 1 q) uid pid]
             end
             (orders s) (order_items s)).
Proof.
  intros E Q F. unfold cart_add, added_quantity, Sql.bind_integer in *.
  rewrite E, Q, (get_product_id _ _ _ E).
  destruct (cart_line uid pid s); now rewrite F.
Qed.

(** Two adds of the same quantity to a cart without the line. *)
Lemma cart_add_twice form s p q :
  get_product pid s = Some p ->
  form_quantity form = Some q ->
  Sql.fits_int64 (Z.max 1 q) = true ->
  Sql.fits_int64 (Z.max 1 q + Z.max 1 q) = true ->
  cart_line uid pid s = None ->
  cart_items (snd (cart_add uid pid form (snd (cart_add uid pid form s))))
  = cart_items s ++
    [CartItem.mk (Sql.next_id (map CartItem.id (cart_items s)))
                 (Z.max 1 q + Z.max 1 q) uid pid].
Proof.
  intros E Q F1 F2 L.
  rewrite (cart_add_items form s p q E Q), L
    by (unfold added_quantity; now rewrite L).
  cbn [snd].
  set (new := CartItem.mk _ _ _ _).
  set (s1 := mkStore _ _ _ _ _).
  assert (L1 : cart_line uid pid s1 = Some new).
  { unfold cart_line, s1. cbn [cart_items]. rewrite find_app_none by exact L.
    cbn. unfold same_line. cbn. now rewrite !Z.eqb_refl. }
  rewrite (cart_add_items form s1 p q E Q), L1
    by (unfold added_quantity; now rewrite L1).
  cbn [snd cart_items s1].
  unfold set_quantity. rewrite map_app.
  fold (set_quantity (CartItem.id new) (CartItem.quantity new + Z.max 1 q)
                     (cart_items s)).
  rewrite set_quantity_fresh by apply next_id_fresh.
  cbn. now rewrite Z.eqb_refl.
Qed.

End CartAdd.

(** C4, as the code has it: for an existing product and a quantity field
    read as [q], when the quantity to write fits the 64-bit column,
    [cart_add] succeeds and, when the user already has a line for the
    product, adds [max 1 q] to that line's quantity, keeps the number of
    rows and leaves the rows of other rowids alone; otherwise it appends
    exactly one line of quantity [max 1 q].  Two adds with quantity 2 to a
    cart without the line leave one line for the pair, of quantity 4. *)
Theorem cart_add_increments_or_creates uid pid form s p q :
  get_product pid s = Some p ->
  form_quantity form = Some q ->
  Sql.fits_int64 (added_quantity uid pid q s) = true ->
  let s' := snd (cart_add uid pid form s) in
  fst (cart_add uid pid form s) = Redirect "Added to cart." "success" ep_cart /\
  match cart_line uid pid s with
  | Some e =>
      cart_line uid pid s'
      = Some (CartItem.mk (CartItem.id e) (CartItem.quantity e + Z.max 1 q) uid pid) /\
      List.length (cart_items s') = List.length (cart_items s) /\
      (forall i, In i (cart_items s) -> CartItem.id i <> CartItem.id e ->
                 In i (cart_items s'))
  | None =>
      cart_items s'
      = cart_items s ++
        [CartItem.mk (Sql.next_id (map CartItem.id (cart_items s)))
                     (Z.max 1 q) uid pid] /\
      (q = 2 ->
       let s'' := snd (cart_add uid pid form s') in
       let line := CartItem.mk (Sql.next_id (map CartItem.id (cart_items s)))
                               4 uid pid in
       cart_items s'' = cart_items s ++ [line] /\
       filter (same_line uid pid) (cart_items s'') = [line])
  end.
Proof.
  intros E Q F s'. subst s'. rewrite (cart_add_items uid pid form s p q E Q F).
  cbn [fst snd]. split; [reflexivity|].
  destruct (cart_line uid pid s) as [e|] eqn:L; cbn [cart_items].
  - split; [|split].
    + unfold cart_line. cbn [cart_items]. now apply find_set_quantity.
    + unfold set_quantity. apply length_map.
    + intros i Hin N. now apply set_quantity_other.
  - split; [reflexivity|]. intros ->.
    pose proof (cart_add_twice uid pid form s p 2 E Q eq_refl eq_refl L) as T.
    rewrite (cart_add_items uid pid form s p 2 E Q F), L in T. cbn [snd] in T.
    cbn zeta. rewrite T. change (Z.max 1 2 + Z.max 1 2) with 4.
    split; [reflexivity|].
    rewrite filter_app, (find_none_filter _ _ _ L). cbn.
    unfold same_line. cbn. now rewrite !Z.eqb_refl.
Qed.

Lemma cart_add_increments_or_creates_witness :
  cart_line 2 1 (snd (cart_add 2 1 [("quantity", "2")] demo_store))
  = Some (CartItem.mk 1 3 2 1).
Proof.
  destruct (cart_add_increments_or_creates 2 1 [("quantity", "2")] demo_store
              kindle 2 eq_refl eq_refl eq_refl) as [_ A].
  change (cart_line 2 1 demo_store) with (Some (CartItem.mk 1 1 2 1)) in A.
  exact (proj1 A).
Defined.

(** C4 fails as stated: a quantity field that reads as an integer too
    large for the 64-bit column makes [cart_add] end in the [OverflowError]
    of the bind, with the cart as it was, both when the line is new and
    when the sum with the line's quantity is too large. *)
Lemma cart_add_overflows :
  form_quantity [("quantity", "99999999999999999999")] = Some 99999999999999999999 /\
  cart_add 2 2 [("quantity", "99999999999999999999")] demo_store
  = (Raise OverflowError, demo_store) /\
  cart_line 2 1 demo_store = Some (CartItem.mk 1 1 2 1) /\
  cart_add 2 1 [("quantity", "9223372036854775807")] demo_store
  = (Raise OverflowError, demo_store).
Proof. repeat split; vm_compute; reflexivity. Qed.

(** ** Validation of the price *)

Lemma truthy_false s : Py.truthy s = false -> s = "".
Proof. destruct s; [reflexivity | discriminate]. Qed.

Lemma float_of_string_truthy s x :
  Py.float_of_string s = Some x -> Py.truthy s = true.
Proof. destruct s; [discriminate | reflexivity]. Qed.

Lemma find_update_product (new p : Product.t) l :
  find (fun r => Product.id r =? Product.id new) l = Some p ->
  find (fun r => Product.id r =? Product.id new) (update_product new l) = Some new.
Proof.
  induction l as [|r l IH]; cbn; [discriminate|].
  destruct (Product.id r =? Product.id new) eqn:E.
  - intros _. now rewrite Z.eqb_refl.
  - intros F. rewrite E. now apply IH.
Qed.

Lemma real_column_negative x :
  Py.fnegative x = true -> Sql.real_column x = Some x.
Proof. destruct x as [[]|[]| |[] m e]; cbn; intros E; try discriminate; reflexivity. Qed.

(** C2, as the code has it: a price field that [float] does not accept,
    the blank one included, makes [add_product] answer with a validation
    error and makes [edit_product], for the owner of an existing product, do
    the same; neither changes the store.  A price field that reads as a
    number below zero is accepted when the other fields are valid, and the
    product is stored with that price. *)
Theorem price_must_parse uid now pid form s :
  let title := Py.strip (form_get form "title") in
  let description := Py.strip (form_get form "description") in
  let category := Py.strip (form_get form "category") in
  let price := Py.strip (form_get form "price") in
  (Py.float_of_string price = None ->
   error_of (fst (add_product uid now form s)) = Some ValidationError /\
   snd (add_product uid now form s) = s /\
   snd (edit_product uid pid form s) = s /\
   (forall p, get_product pid s = Some p -> Product.seller_id p = uid ->
              error_of (fst (edit_product uid pid form s)) = Some ValidationError)) /\
  (forall x,
      Py.float_of_string price = Some x ->
      Py.fnegative x = true ->
      Py.truthy title = true -> Py.truthy description = true ->
      in_categories category = true ->
      (fst (add_product uid now form s)
       = Redirect "Product added." "success" ep_dashboard /\
       exists p, products (snd (add_product uid now form s)) = products s ++ [p] /\
                 Product.price p = x) /\
      (forall p, get_product pid s = Some p -> Product.seller_id p = uid ->
                 fst (edit_product uid pid form s)
                 = Redirect "Product updated." "success" ep_dashboard /\
                 exists p', get_product pid (snd (edit_product uid pid form s)) = Some p' /\
                            Product.price p' = x)).
Proof.
  intros title description category price. split.
  - intros F. unfold add_product, edit_product.
    fold title description category price. rewrite F.
    repeat split.
    + destruct (_ || _); reflexivity.
    + destruct (_ || _); reflexivity.
    + destruct (get_product pid s); [|reflexivity].
      destruct (negb _); [reflexivity|]. destruct (_ || _); reflexivity.
    + intros p E O. rewrite E. apply Z.eqb_eq in O. rewrite O. cbn [negb].
      destruct (_ || _); reflexivity.
  - intros x F Neg T D C. pose proof (float_of_string_truthy _ _ F) as P.
    unfold add_product, edit_product.
    fold title description category price.
    rewrite F, T, D, C, P, (real_column_negative _ Neg). cbn [negb orb].
    split.
    + split; [reflexivity|]. eexists. split; reflexivity.
    + intros p E O. rewrite E. apply Z.eqb_eq in O. rewrite O. cbn [negb fst snd].
      split; [reflexivity|].
      pose proof (get_product_id pid s p E) as I.
      set (new := edited p title description category x _).
      exists new. split; [|reflexivity].
      unfold get_product in *. cbn [products].
      replace pid with (Product.id new) in * by exact I.
      now apply find_update_product with (p := p).
Qed.

Lemma price_must_parse_witness :
  snd (add_product 1 300 [("title", "Chair"); ("description", "Oak.");
                          ("category", "Furniture"); ("price", "ten")] demo_store)
  = demo_store.
Proof.
  destruct (price_must_parse 1 300 1
              [("title", "Chair"); ("description", "Oak.");
               ("category", "Furniture"); ("price", "ten")] demo_store)
    as [A _].
  exact (proj1 (proj2 (A eq_refl))).
Defined.

(** C2 fails as stated: the price field [-5] reads as a number below zero,
    [add_product] answers with a success and stores the product with that
    price, and so does [edit_product] on the owner's product. *)
Lemma negative_price_is_stored :
  (exists x, Py.float_of_string "-5" = Some x /\ Py.fnegative x = true) /\
  fst (add_product 1 300 refund_form demo_store)
  = Redirect "Product added." "success" ep_dashboard /\
  (exists p, In p (products (snd (add_product 1 300 refund_form demo_store))) /\
             Py.fnegative (Product.price p) = true) /\
  fst (edit_product 1 1 refund_form demo_store)
  = Redirect "Product updated." "success" ep_dashboard /\
  (exists p, get_product 1 (snd (edit_product 1 1 refund_form demo_store)) = Some p /\
             Py.fnegative (Product.price p) = true).
Proof.
  split; [eexists; split; vm_compute; reflexivity|].
  split; [vm_compute; reflexivity|].
  split; [eexists; split; [vm_compute; right; right; left; reflexivity
                          | vm_compute; reflexivity]|].
  split; [vm_compute; reflexivity|].
  eexists; split; vm_compute; reflexivity.
Qed.

(** ** Deleting a product that is in a cart *)

(** C3, at the failing input: the owner's delete of a product that is in
    another user's cart succeeds and removes the product only; the cart
    table is as before, and its line refers to a product that is gone. *)
Lemma delete_product_orphans_cart_line :
  fst (delete_product 1 1 demo_store)
  = Redirect "Product deleted." "info" ep_dashboard /\
  get_product 1 orphaned_store = None /\
  cart_items orphaned_store = [CartItem.mk 1 1 2 1] /\
  cart_items orphaned_store = cart_items demo_store.
Proof. repeat split; vm_compute; reflexivity. Qed.

(** ** Registration and login *)

Lemma user_by_email_new s u :
  user_by_email (User.email u) s = None ->
  user_by_email (User.email u)
    (mkStore (users s ++ [u]) (products s) (cart_items s) (orders s)
             (order_items s))
  = Some u.
Proof.
  unfold user_by_email. cbn [users]. intros N.
  rewrite find_app_none by exact N. cbn. now rewrite String.eqb_refl.
Qed.

Lemma plain_hasher_ok : hasher_ok plain_hasher.
Proof. intros salt password. apply String.eqb_refl. Qed.

(** ** Checkout *)


(** The loop fails as soon as one line has no product. *)
Lemma checkout_loop_orphan s order_id items : forall oi_id acc item,
  In item items ->
  get_product (CartItem.product_id item) s = None ->
  checkout_loop s order_id oi_id items acc = None.
Proof.
  induction items as [|i items IH]; intros oi_id acc item Hin E; [easy|].
  cbn [checkout_loop]. destruct Hin as [->|Hin].
  - now rewrite E.
  - destruct (get_product (CartItem.product_id i) s); [|reflexivity].
    now rewrite (IH _ _ item Hin E).
Qed.

Lemma cart_emptied uid l :
  filter (fun i => CartItem.user_id i =? uid)
         (delete_cart_items (filter (fun i => CartItem.user_id i =? uid) l) l)
  = [].
Proof.
  unfold delete_cart_items.
  set (mine := filter (fun i => CartItem.user_id i =? uid) l).
  assert (K : forall i, In i l -> (CartItem.user_id i =? uid) = true ->
                        existsb (Z.eqb (CartItem.id i)) (map CartItem.id mine) = true).
  { intros i Hin U. apply existsb_exists. exists (CartItem.id i).
    split; [|apply Z.eqb_refl]. apply in_map. apply filter_In. now split. }
  clearbody mine. induction l as [|i l IH]; [reflexivity|].
  cbn [filter].
  destruct (existsb (Z.eqb (CartItem.id i)) (map CartItem.id mine)) eqn:X; cbn [negb].
  - apply IH. intros j Hin. apply K. now right.
  - cbn [filter]. destruct (CartItem.user_id i =? uid) eqn:U.
    + rewrite (K i (or_introl eq_refl) U) in X. discriminate.
    + apply IH. intros j Hin. apply K. now right.
Qed.



(** C1, at the failing input: in the store reached by deleting a product
    that is in the second user's cart, that cart is not empty, yet
    [checkout] raises [AttributeError]; no order is made and the cart keeps
    its line. *)
Lemma checkout_raises_on_orphan_line :
  cart_of 2 orphaned_store = [CartItem.mk 1 1 2 1] /\
  checkout 2 300 orphaned_store = (Raise AttributeError, orphaned_store) /\
  orders (snd (checkout 2 300 orphaned_store)) = [] /\
  cart_of 2 (snd (checkout 2 300 orphaned_store)) <> [].
Proof.
  repeat split; try (vm_compute; reflexivity). vm_compute. discriminate.
Qed.

(** ** Listing and search *)

(** *** Characters *)

Lemma lower_char_idem c : Py.lower_char (Py.lower_char c) = Py.lower_char c.
Proof. each_char c. Qed.



Lemma chars_str l : Py.chars (Py.str l) = l.
Proof. apply list_ascii_of_string_of_list_ascii. Qed.



Lemma map_lower_idem l : map Py.lower_char (map Py.lower_char l) = map Py.lower_char l.
Proof. rewrite map_map. apply map_ext. intros c. apply lower_char_idem. Qed.


(** *** [LIKE] *)










(** *** Ordering *)

Lemma insert_desc_In p l x : In x (insert_desc p l) <-> x = p \/ In x l.
Proof.
  induction l as [|q l IH]; cbn.
  - intuition.
  - destruct (Product.created_at q <=? Product.created_at p); cbn; [intuition|].
    rewrite IH. intuition.
Qed.

Lemma order_by_In l x : In x (order_by_created_at_desc l) <-> In x l.
Proof.
  unfold order_by_created_at_desc. induction l as [|p l IH]; cbn; [easy|].
  rewrite insert_desc_In, IH. intuition.
Qed.

Lemma insert_desc_sorted p l : newest_first l -> newest_first (insert_desc p l).
Proof.
  unfold newest_first. induction l as [|q l IH]; intros S; cbn.
  - repeat constructor.
  - apply StronglySorted_inv in S. destruct S as [S F].
    destruct (Product.created_at q <=? Product.created_at p) eqn:C.
    + apply Z.leb_le in C. constructor; [now constructor|].
      constructor; [lia|]. rewrite Forall_forall in *.
      intros y Hin. specialize (F y Hin). cbn in F. lia.
    + apply Z.leb_gt in C. constructor; [now apply IH|].
      rewrite Forall_forall in *. intros y Hin.
      apply insert_desc_In in Hin. destruct Hin as [->|Hin]; [lia|].
      now apply F.
Qed.

Lemma order_by_sorted l : newest_first (order_by_created_at_desc l).
Proof.
  unfold order_by_created_at_desc. induction l as [|p l IH]; cbn.
  - constructor.
  - now apply insert_desc_sorted.
Qed.


Lemma in_categories_truthy cat : in_categories cat = true -> Py.truthy cat = true.
Proof. destruct cat; [discriminate | reflexivity]. Qed.

(** What [index] returns, in the terms of its query. *)
Lemma index_In args s p :
  let q := Py.strip (form_get args "q") in
  let cat := Py.strip (form_get args "category") in
  In p (index args s) <->
  In p (products s) /\
  (q = "" \/ Sql.ilike (Product.title p) (String.append "%" (String.append q "%")) = true) /\
  (in_categories cat = true -> Product.category p = cat).
Proof.
  intros q cat. unfold index. fold q cat.
  assert (A : forall l,
             In p (if Py.truthy cat && in_categories cat
                   then filter (fun r => String.eqb (Product.category r) cat) l
                   else l)
             <-> In p l /\ (in_categories cat = true -> Product.category p = cat)).
  { intros l. destruct (in_categories cat) eqn:C.
    - rewrite (in_categories_truthy _ C). cbn [andb].
      rewrite filter_In, String.eqb_eq. intuition.
    - rewrite andb_false_r. intuition discriminate. }
  rewrite A. destruct (Py.truthy q) eqn:T.
  - rewrite filter_In, order_by_In.
    assert (q <> "") by (intros ->; discriminate). intuition.
  - rewrite order_by_In. apply truthy_false in T. intuition.
Qed.








(** ** Trimming and lower case *)

Lemma isspace_lower c : Py.isspace (Py.lower_char c) = Py.isspace c.
Proof. each_char c. Qed.

Lemma lstrip_head l :
  Py.lstrip l = [] \/
  exists c a, Py.lstrip l = c :: a /\ Py.isspace c = false.
Proof.
  induction l as [|c l IH]; cbn; [now left|].
  destruct (Py.isspace c) eqn:E; [exact IH|]. right. now exists c, l.
Qed.

Lemma lstrip_idem l : Py.lstrip (Py.lstrip l) = Py.lstrip l.
Proof.
  induction l as [|c l IH]; cbn; [reflexivity|].
  destruct (Py.isspace c) eqn:E; [exact IH|]. cbn. now rewrite E.
Qed.

Lemma lstrip_snoc l c :
  Py.isspace c = false -> Py.lstrip (l ++ [c]) = Py.lstrip l ++ [c].
Proof.
  intros N. induction l as [|d l IH]; cbn; [now rewrite N|].
  destruct (Py.isspace d); [exact IH | reflexivity].
Qed.

Lemma rstrip_cons c l :
  Py.isspace c = false -> Py.rstrip (c :: l) = c :: Py.rstrip l.
Proof.
  intros N. unfold Py.rstrip. cbn [rev].
  now rewrite (lstrip_snoc _ _ N), rev_app_distr.
Qed.

Lemma rstrip_idem l : Py.rstrip (Py.rstrip l) = Py.rstrip l.
Proof. unfold Py.rstrip. now rewrite rev_involutive, lstrip_idem. Qed.

Lemma strip_chars_idem l :
  Py.rstrip (Py.lstrip (Py.rstrip (Py.lstrip l))) = Py.rstrip (Py.lstrip l).
Proof.
  destruct (lstrip_head l) as [E | [c [a [E N]]]]; rewrite E.
  - reflexivity.
  - rewrite (rstrip_cons _ _ N). cbn [Py.lstrip]. rewrite N.
    now rewrite (rstrip_cons _ _ N), rstrip_idem.
Qed.

Lemma strip_idem x : Py.strip (Py.strip x) = Py.strip x.
Proof. unfold Py.strip. now rewrite chars_str, strip_chars_idem. Qed.

Lemma lstrip_lower l :
  Py.lstrip (map Py.lower_char l) = map Py.lower_char (Py.lstrip l).
Proof.
  induction l as [|c l IH]; cbn; [reflexivity|].
  rewrite isspace_lower. destruct (Py.isspace c); [exact IH | reflexivity].
Qed.

Lemma strip_lower x : Py.strip (Py.lower x) = Py.lower (Py.strip x).
Proof.
  unfold Py.strip, Py.lower, Py.rstrip. rewrite !chars_str. f_equal.
  now rewrite lstrip_lower, <- map_rev, lstrip_lower, map_rev.
Qed.

Lemma lower_idem x : Py.lower (Py.lower x) = Py.lower x.
Proof. unfold Py.lower. now rewrite chars_str, map_lower_idem. Qed.

Lemma normal_email_of x : normal_email (Py.lower (Py.strip x)).
Proof.
  unfold normal_email. now rewrite strip_lower, lower_idem, strip_idem.
Qed.

Lemma stripped_strip x : Py.truthy (Py.strip x) = true -> stripped (Py.strip x) = true.
Proof.
  intros T. unfold stripped. now rewrite T, strip_idem, String.eqb_refl.
Qed.

Lemma stripped_image x : stripped (image_or_placeholder (Py.strip x)) = true.
Proof.
  unfold image_or_placeholder. destruct (Py.truthy (Py.strip x)) eqn:T.
  - now apply stripped_strip.
  - reflexivity.
Qed.

(** ** The writes of the handlers *)

Lemma writes_one s s' : write s s' -> writes s s'.
Proof. intros W. exact (ws_more s s s' (ws_none s) W). Qed.

Lemma writes_trans s s1 s2 : writes s s1 -> writes s1 s2 -> writes s s2.
Proof.
  intros A B. induction B as [|s2 s3 B IH W]; [exact A|].
  exact (ws_more s s2 s3 IH W).
Qed.

(** What a successful loop of [checkout] returns. *)
Lemma checkout_loop_result s order_id items : forall oi_id acc total ois,
  checkout_loop s order_id oi_id items acc = Some (total, ois) ->
  total
  = fold_left
      (fun a oi =>
         Py.fadd a (Py.fmul (OrderItem.product_price oi)
                            (Py.float_of_int (OrderItem.quantity oi))))
      ois acc /\
  Forall (fun oi => OrderItem.order_id oi = order_id) ois /\
  Forall (fun oi => oi_id <= OrderItem.id oi) ois /\
  NoDup (map OrderItem.id ois) /\
  List.length ois = List.length items.
Proof.
  induction items as [|item items IH]; intros oi_id acc total ois E;
    cbn [checkout_loop] in E.
  - injection E as <- <-. repeat split; constructor.
  - destruct (get_product (CartItem.product_id item) s) as [p|]; [|discriminate].
    destruct (checkout_loop s order_id (oi_id + 1) items _) as [[t r]|] eqn:L;
      [|discriminate].
    injection E as <- <-. destruct (IH _ _ _ _ L) as [T [O [I [N Len]]]].
    split; [exact T|]. split; [now constructor|]. split; [|split].
    + constructor; [cbn; lia|]. eapply Forall_impl; [|exact I]. cbn. intros; lia.
    + cbn [map]. constructor; [|exact N]. cbn. intros Hin.
      apply in_map_iff in Hin. destruct Hin as [oi [Eq Hin]].
      rewrite Forall_forall in I. specialize (I oi Hin). lia.
    + cbn. now rewrite Len.
Qed.

Lemma sample_rows_valid :
  Forall (fun row =>
            let '(t, d, c, p, img) := row in
            forall pid now seller,
              valid_product (Product.mk pid t d c p
                                        (Some (image_or_placeholder img)) now seller)
              = true)
         samples.
Proof. repeat constructor. Qed.

Lemma seed_writes seller clock rows : forall n s,
  Forall (fun row =>
            let '(t, d, c, p, img) := row in
            forall pid now seller,
              valid_product (Product.mk pid t d c p
                                        (Some (image_or_placeholder img)) now seller)
              = true)
         rows ->
  writes s (mkStore (users s) (seed seller clock n rows (products s))
                    (cart_items s) (orders s) (order_items s)).
Proof.
  induction rows as [|[[[[t d] c] p] img] rows IH]; intros n s V.
  - cbn. destruct s. apply ws_none.
  - apply Forall_cons_iff in V. destruct V as [V0 V]. cbn [seed].
    set (row := Product.mk _ _ _ _ _ _ _ _).
    eapply writes_trans.
    + apply writes_one. apply (w_insert_product s row); [reflexivity | apply V0].
    + exact (IH (n + 1) (mkStore (users s) (products s ++ [row]) (cart_items s)
                                 (orders s) (order_items s)) V).
Qed.

(** Every request is a run of writes. *)
Lemma handle_writes {H : PasswordHasher} r s : writes s (handle r s).
Proof.
  destruct r; cbn [handle].
  - unfold register.
    destruct (_ || _); [apply ws_none|].
    destruct (user_by_email _ s) eqn:U; [apply ws_none|]. cbn [snd].
    apply writes_one.
    apply (w_insert_user s (User.mk _ _ _ _));
      [reflexivity | exact U | apply normal_email_of].
  - unfold login. destruct (user_by_email _ s); [|apply ws_none].
    destruct (check_password_hash _ _); apply ws_none.
  - unfold dashboard_post. destruct (Py.truthy _); [|apply ws_none].
    apply writes_one. apply w_rename.
  - unfold add_product.
    destruct (negb (Py.truthy (Py.strip (form_get form "title")))) eqn:T;
      [apply ws_none|].
    destruct (negb (Py.truthy (Py.strip (form_get form "description")))) eqn:D;
      [apply ws_none|].
    destruct (negb (in_categories (Py.strip (form_get form "category")))) eqn:C;
      [apply ws_none|].
    destruct (negb (Py.truthy (Py.strip (form_get form "price")))); [apply ws_none|].
    cbn [orb]. destruct (Py.float_of_string _) as [x|]; [|apply ws_none].
    destruct (Sql.real_column x); [|apply ws_none].
    cbn [snd]. apply writes_one.
    apply (w_insert_product s (Product.mk _ _ _ _ _ _ _ _)); [reflexivity|].
    apply negb_false_iff in T, D, C. unfold valid_product.
    cbn [Product.title Product.description Product.category Product.image_url].
    now rewrite (stripped_strip _ T), (stripped_strip _ D), C, stripped_image.
  - unfold edit_product. destruct (get_product pid s); [|apply ws_none].
    destruct (negb (_ =? _)); [apply ws_none|].
    destruct (negb (Py.truthy (Py.strip (form_get form "title")))) eqn:T;
      [apply ws_none|].
    destruct (negb (Py.truthy (Py.strip (form_get form "description")))) eqn:D;
      [apply ws_none|].
    destruct (negb (in_categories (Py.strip (form_get form "category")))) eqn:C;
      [apply ws_none|].
    destruct (negb (Py.truthy (Py.strip (form_get form "price")))); [apply ws_none|].
    cbn [orb]. destruct (Py.float_of_string _) as [x|]; [|apply ws_none].
    destruct (Sql.real_column x); [|apply ws_none].
    cbn [snd]. apply writes_one. apply w_update_product.
    apply negb_false_iff in T, D, C. unfold valid_product, edited.
    cbn [Product.title Product.description Product.category Product.image_url].
    now rewrite (stripped_strip _ T), (stripped_strip _ D), C, stripped_image.
  - unfold delete_product. destruct (get_product pid s); [|apply ws_none].
    destruct (negb (_ =? _)); [apply ws_none|].
    apply writes_one. apply w_delete_products.
  - unfold cart_add. destruct (get_product pid s) as [p|]; [|apply ws_none].
    destruct (form_quantity form) as [q|]; [|apply ws_none].
    unfold Sql.bind_integer.
    destruct (cart_line uid (Product.id p) s) as [e|] eqn:L;
      destruct (Sql.fits_int64 _); try apply ws_none; cbn [snd]; apply writes_one.
    + apply w_set_quantity; [|lia]. unfold cart_line in L.
      now apply find_some in L.
    + apply (w_insert_line s (CartItem.mk _ _ _ _)); [reflexivity | cbn; lia | exact L].
  - unfold cart_update. destruct (get_cart_item item_id s) as [e|] eqn:G;
      [|apply ws_none].
    destruct (negb (_ =? _)); [apply ws_none|].
    destruct (form_quantity form) as [q|]; [|apply ws_none].
    unfold Sql.bind_integer. destruct (Sql.fits_int64 _); [|apply ws_none].
    cbn [snd]. apply writes_one. apply w_set_quantity; [|lia].
    unfold get_cart_item in G. now apply find_some in G.
  - unfold cart_remove. destruct (get_cart_item item_id s); [|apply ws_none].
    destruct (negb (_ =? _)); [apply ws_none|].
    apply writes_one. apply w_delete_lines.
  - unfold checkout. destruct (cart_of uid s) as [|item items]; [apply ws_none|].
    destruct (checkout_loop _ _ _ _ _) as [[total ois]|] eqn:L; [|apply ws_none].
    cbn [snd]. destruct (checkout_loop_result _ _ _ _ _ _ _ L) as [T [O [I [N _]]]].
    set (s1 := mkStore (users s) (products s)
                       (delete_cart_items (item :: items) (cart_items s))
                       (orders s) (order_items s)).
    apply (ws_more s s1).
    + apply writes_one. unfold s1, delete_cart_items. apply w_delete_lines.
    + exact (w_place_order s1
               (Order.mk (Sql.next_id (map Order.id (orders s))) now total uid)
               ois eq_refl O I N T).
  - unfold init_db.
    set (s1 := match user_by_email DEMO_EMAIL s with Some _ => s | None => _ end).
    assert (W1 : writes s s1).
    { subst s1. destruct (user_by_email DEMO_EMAIL s) eqn:U; [apply ws_none|].
      apply writes_one.
      apply (w_insert_user s (User.mk _ _ _ _));
        [reflexivity | exact U | reflexivity]. }
    destruct (_ =? 0); [|exact W1].
    destruct (user_by_email DEMO_EMAIL s1); [|exact W1].
    eapply writes_trans; [exact W1|]. apply seed_writes, sample_rows_valid.
Qed.

(** ** Lists without repetition *)

Lemma NoDup_snoc (A : Type) (l : list A) (x : A) :
  NoDup l -> ~ In x l -> NoDup (l ++ [x]).
Proof.
  intros N F. apply NoDup_app.
  - exact N.
  - constructor; [intros [] | constructor].
  - intros a Hin [<-|[]]. contradiction.
Qed.

Lemma NoDup_map_filter (A B : Type) (g : A -> B) (f : A -> bool) (l : list A) :
  NoDup (map g l) -> NoDup (map g (filter f l)).
Proof.
  induction l as [|a l IH]; cbn; [easy|]. intros N.
  apply NoDup_cons_iff in N. destruct N as [F N].
  destruct (f a); [|now apply IH]. cbn. constructor; [|now apply IH].
  intros Hin. apply F. apply in_map_iff in Hin. destruct Hin as [b [E Hin]].
  apply in_map_iff. exists b. split; [exact E|]. now apply filter_In in Hin.
Qed.

Lemma set_username_ids uid name l :
  map User.id (set_username uid name l) = map User.id l.
Proof.
  unfold set_username. rewrite map_map. apply map_ext.
  intros u. now destruct (User.id u =? uid).
Qed.

Lemma set_username_emails uid name l :
  map User.email (set_username uid name l) = map User.email l.
Proof.
  unfold set_username. rewrite map_map. apply map_ext.
  intros u. now destruct (User.id u =? uid).
Qed.

Lemma update_product_ids p l :
  map Product.id (update_product p l) = map Product.id l.
Proof.
  unfold update_product. rewrite map_map. apply map_ext.
  intros r. destruct (Product.id r =? Product.id p) eqn:E; [|reflexivity].
  apply Z.eqb_eq in E. now symmetry.
Qed.

Lemma set_quantity_ids item_id q l :
  map CartItem.id (set_quantity item_id q l) = map CartItem.id l.
Proof.
  unfold set_quantity. rewrite map_map. apply map_ext.
  intros i. now destruct (CartItem.id i =? item_id).
Qed.

Lemma set_quantity_pairs item_id q l :
  map (fun i => (CartItem.user_id i, CartItem.product_id i)) (set_quantity item_id q l)
  = map (fun i => (CartItem.user_id i, CartItem.product_id i)) l.
Proof.
  unfold set_quantity. rewrite map_map. apply map_ext.
  intros i. now destruct (CartItem.id i =? item_id).
Qed.

(** ** The invariants hold after every write *)

Lemma write_keys_ok s s' : write s s' -> keys_ok s -> keys_ok s'.
Proof.
  unfold keys_ok. intros W [U [P [C [O I]]]].
  destruct W; cbn [users products cart_items orders order_items];
    repeat split; try assumption.
  - rewrite map_app. apply NoDup_snoc; [exact U|]. cbn.
    rewrite H. apply next_id_fresh.
  - now rewrite set_username_ids.
  - rewrite map_app. apply NoDup_snoc; [exact P|]. cbn.
    rewrite H. apply next_id_fresh.
  - now rewrite update_product_ids.
  - now apply NoDup_map_filter.
  - rewrite map_app. apply NoDup_snoc; [exact C|]. cbn.
    rewrite H. apply next_id_fresh.
  - now rewrite set_quantity_ids.
  - now apply NoDup_map_filter.
  - rewrite map_app. apply NoDup_snoc; [exact O|]. cbn.
    rewrite H. apply next_id_fresh.
  - rewrite map_app. apply NoDup_app; [exact I | exact H2 |].
    intros a Hin Hin'. apply next_id_above in Hin.
    apply in_map_iff in Hin'. destruct Hin' as [oi [<- Hin']].
    rewrite Forall_forall in H1. specialize (H1 oi Hin'). lia.
Qed.

Lemma write_emails_ok s s' : write s s' -> emails_ok s -> emails_ok s'.
Proof.
  unfold emails_ok. intros W [N F].
  destruct W; cbn [users]; try (split; assumption).
  - split.
    + rewrite map_app. apply NoDup_snoc; [exact N|]. cbn. intros Hin.
      apply in_map_iff in Hin. destruct Hin as [v [E Hin]].
      unfold user_by_email in H0.
      pose proof (find_none _ _ H0 v Hin) as K. cbn in K.
      rewrite E, String.eqb_refl in K. discriminate.
    + apply Forall_app. split; [exact F | now constructor].
  - split; [now rewrite set_username_emails|].
    unfold set_username. apply Forall_map. eapply Forall_impl; [|exact F].
    intros u K. now destruct (User.id u =? uid).
Qed.

Lemma write_catalog_ok s s' : write s s' -> catalog_ok s -> catalog_ok s'.
Proof.
  unfold catalog_ok. intros W F.
  destruct W; cbn [products]; try assumption.
  - apply Forall_app. split; [exact F | now constructor].
  - unfold update_product. apply Forall_map. eapply Forall_impl; [|exact F].
    intros r K. now destruct (Product.id r =? Product.id p).
  - rewrite Forall_forall in *. intros p Hin. apply filter_In in Hin. now apply F.
Qed.

Lemma write_cart_ok s s' : write s s' -> cart_ok s -> cart_ok s'.
Proof.
  unfold cart_ok. intros W [Q N].
  destruct W; cbn [cart_items]; try (split; assumption).
  - split.
    + apply Forall_app. split; [exact Q | now constructor].
    + rewrite map_app. apply NoDup_snoc; [exact N|]. cbn. intros Hin.
      apply in_map_iff in Hin. destruct Hin as [j [E Hin]].
      injection E as Eu Ep. unfold cart_line in H1.
      pose proof (find_none _ _ H1 j Hin) as K. unfold same_line in K.
      now rewrite Eu, Ep, !Z.eqb_refl in K.
  - split; [|now rewrite set_quantity_pairs].
    rewrite Forall_forall in Q. pose proof (H0 (Q e H)) as Hq.
    unfold set_quantity. apply Forall_map. apply Forall_forall.
    intros i Hin. destruct (CartItem.id i =? CartItem.id e); [exact Hq | now apply Q].
  - split; [|now apply NoDup_map_filter].
    rewrite Forall_forall in *. intros i Hin. apply filter_In in Hin. now apply Q.
Qed.




Lemma writes_preserve (P : Store -> Prop) :
  (forall s s', write s s' -> P s -> P s') ->
  forall s s', writes s s' -> P s -> P s'.
Proof.
  intros Step s s' W. induction W as [|s1 s2 W IH W1]; [easy|].
  intros Ps. exact (Step s1 s2 W1 (IH Ps)).
Qed.

(** ** The invariants hold after every request *)


(** X1: a request keeps the rowids of every table distinct. *)
Theorem requests_keep_keys {H : PasswordHasher} r s :
  keys_ok s -> keys_ok (handle r s).
Proof. exact (writes_preserve keys_ok write_keys_ok _ _ (handle_writes r s)). Qed.

Lemma requests_keep_keys_witness :
  keys_ok (handle (H := plain_hasher) (Checkout 2 300) demo_store).
Proof.
  apply (requests_keep_keys (H := plain_hasher) (Checkout 2 300) demo_store).
  repeat split; repeat (constructor; [cbn; intuition discriminate|]); constructor.
Defined.

(** X2: a request keeps the emails of the users distinct and normal
    (trimmed, lower case), so no two users share an email up to case. *)
Theorem requests_keep_emails {H : PasswordHasher} r s :
  emails_ok s -> emails_ok (handle r s).
Proof. exact (writes_preserve emails_ok write_emails_ok _ _ (handle_writes r s)). Qed.

Lemma requests_keep_emails_witness :
  emails_ok (handle (H := plain_hasher) (Register "salt" ann_form) empty_store).
Proof.
  apply (requests_keep_emails (H := plain_hasher) (Register "salt" ann_form)
           empty_store).
  split; constructor.
Defined.

(** X3: a request keeps every product valid: title, description and image
    not empty and trimmed, category in the closed set. *)
Theorem requests_keep_catalog {H : PasswordHasher} r s :
  catalog_ok s -> catalog_ok (handle r s).
Proof. exact (writes_preserve catalog_ok write_catalog_ok _ _ (handle_writes r s)). Qed.

Lemma requests_keep_catalog_witness :
  catalog_ok (handle (H := plain_hasher) (AddProduct 1 100 kindle_form) empty_store).
Proof.
  apply (requests_keep_catalog (H := plain_hasher) (AddProduct 1 100 kindle_form)
           empty_store).
  constructor.
Defined.

(** X4: a request keeps every cart quantity at one or more and keeps one
    cart line per user and product at most. *)
Theorem requests_keep_cart {H : PasswordHasher} r s :
  cart_ok s -> cart_ok (handle r s).
Proof. exact (writes_preserve cart_ok write_cart_ok _ _ (handle_writes r s)). Qed.

Lemma requests_keep_cart_witness :
  cart_ok (handle (H := plain_hasher) (CartAdd 2 1 [("quantity", "-3")]) demo_store).
Proof.
  apply (requests_keep_cart (H := plain_hasher) (CartAdd 2 1 [("quantity", "-3")])
           demo_store).
  split; repeat (constructor; [cbn; intuition (discriminate || lia)|]); constructor.
Defined.




(** ** Accounts *)

(** X7: [login] never writes to the store; it logs a user in only if that
    user is stored under the normalized email and the password passes the
    check against the stored hash; every failure, unknown email or wrong
    password alike, is the same "Invalid credentials." answer. *)
Theorem login_checks_credentials {H : PasswordHasher} form s :
  snd (login form s) = s /\
  (forall u, snd (fst (login form s)) = Some u ->
             In u (users s) /\
             User.email u = Py.lower (Py.strip (form_get form "email")) /\
             check_password_hash (User.password_hash u)
                                 (Py.strip (form_get form "password")) = true /\
             fst (fst (login form s))
             = Redirect "Logged in successfully." "success" ep_dashboard) /\
  (snd (fst (login form s)) = None ->
   fst (fst (login form s)) = Redirect "Invalid credentials." "error" ep_login).
Proof.
  unfold login.
  destruct (user_by_email _ s) as [u|] eqn:U; [|repeat split; discriminate].
  destruct (check_password_hash _ _) eqn:C; cbn; repeat split; try discriminate.
  - injection H0 as <-. unfold user_by_email in U. now apply find_some in U.
  - injection H0 as <-. unfold user_by_email in U. apply find_some in U.
    destruct U as [_ U]. now apply String.eqb_eq in U.
  - injection H0 as <-. exact C.
Qed.

Lemma truthy_lower x : Py.truthy (Py.lower x) = Py.truthy x.
Proof. now destruct x. Qed.

(** X8: the three outcomes of [register], each with its condition: the
    validation error exactly when a field is blank after trimming, the
    conflict error exactly when no field is blank and the normalized email
    is registered, the success otherwise; only the success writes to the
    store, and it appends one user, with the normalized email, the trimmed
    username and the hash of the trimmed password. *)
Theorem register_outcomes {H : PasswordHasher} salt form s :
  let email := Py.lower (Py.strip (form_get form "email")) in
  let password := Py.strip (form_get form "password") in
  let username := Py.strip (form_get form "username") in
  let blank := negb (Py.truthy email) || negb (Py.truthy password)
               || negb (Py.truthy username) in
  let r := register salt form s in
  (blank = true ->
   r = (Redirect "Please fill all fields." "error" ep_register, None, s)) /\
  (blank = false -> user_by_email email s <> None ->
   r = (Redirect "Email already registered." "error" ep_register, None, s)) /\
  (blank = false -> user_by_email email s = None ->
   exists u,
     r = (Redirect "Welcome to EcoFinds!" "success" ep_dashboard, Some u,
          mkStore (users s ++ [u]) (products s) (cart_items s) (orders s)
                  (order_items s)) /\
     u = User.mk (Sql.next_id (map User.id (users s))) email
                 (generate_password_hash salt password) username /\
     ~ In (User.id u) (map User.id (users s))).
Proof.
  intros email password username blank r. unfold r, register.
  fold email password username blank.
  split; [|split].
  - intros ->. reflexivity.
  - intros -> N. destruct (user_by_email email s); [reflexivity | now elim N].
  - intros -> ->. eexists. split; [reflexivity|]. split; [reflexivity|].
    cbn. apply next_id_fresh.
Qed.

Lemma register_outcomes_witness :
  register (H := plain_hasher) "salt" [("email", "ANN@example.org "); ("password", "x");
                                       ("username", "ann2")] demo_store
  = (Redirect "Email already registered." "error" ep_register, None, demo_store).
Proof.
  apply (proj1 (proj2 (register_outcomes (H := plain_hasher) "salt"
                         [("email", "ANN@example.org "); ("password", "x");
                          ("username", "ann2")] demo_store))).
  - reflexivity.
  - vm_compute. discriminate.
Defined.

Lemma find_set_username uid name email l :
  find (fun u => String.eqb (User.email u) email) (set_username uid name l)
  = option_map
      (fun u => if User.id u =? uid
                then User.mk (User.id u) (User.email u) (User.password_hash u) name
                else u)
      (find (fun u => String.eqb (User.email u) email) l).
Proof.
  unfold set_username. induction l as [|u l IH]; cbn [map find]; [reflexivity|].
  destruct (User.id u =? uid) eqn:E; cbn [User.email];
    destruct (String.eqb (User.email u) email); cbn [option_map];
    rewrite ?E; first [reflexivity | exact IH].
Qed.

(** X9: the profile update refuses a blank username and then leaves the
    store as it was; otherwise it writes the trimmed username to the rows of
    that rowid and to nothing else: rowids, emails and password hashes of all
    users, and every other table, stay as they were. *)
Theorem dashboard_post_renames uid form s :
  let username := Py.strip (form_get form "username") in
  let s' := snd (dashboard_post uid form s) in
  (Py.truthy username = false ->
   dashboard_post uid form s
   = (Redirect "Username cannot be empty." "error" ep_dashboard, s)) /\
  (Py.truthy username = true ->
   fst (dashboard_post uid form s)
   = Redirect "Profile updated." "success" ep_dashboard /\
   forall u, In u (users s) ->
             In (if User.id u =? uid
                 then User.mk (User.id u) (User.email u) (User.password_hash u)
                              username
                 else u) (users s')) /\
  map User.id (users s') = map User.id (users s) /\
  map User.email (users s') = map User.email (users s) /\
  map User.password_hash (users s') = map User.password_hash (users s) /\
  products s' = products s /\ cart_items s' = cart_items s /\
  orders s' = orders s /\ order_items s' = order_items s.
Proof.
  intros username s'. subst s'. unfold dashboard_post. fold username.
  destruct (Py.truthy username); cbn [fst snd users products cart_items orders
                                          order_items].
  - split; [discriminate|]. split.
    + intros _. split; [reflexivity|]. intros u Hin.
      unfold set_username. apply in_map_iff. now exists u.
    + rewrite set_username_ids, set_username_emails. repeat split.
      unfold set_username. rewrite map_map. apply map_ext.
      intros u. now destruct (User.id u =? uid).
  - split; [reflexivity|]. split; [discriminate|]. repeat split.
Qed.

Lemma dashboard_post_renames_witness :
  dashboard_post 1 [("username", "   ")] demo_store
  = (Redirect "Username cannot be empty." "error" ep_dashboard, demo_store).
Proof.
  exact (proj1 (dashboard_post_renames 1 [("username", "   ")] demo_store) eq_refl).
Defined.

(** X10: a change of username does not lock anybody out: a login that
    succeeds before the profile update of any user succeeds after it, as
    the user of the same rowid, email and password hash. *)
Theorem rename_keeps_login {H : PasswordHasher} uid form lform s u :
  login lform s
  = (Redirect "Logged in successfully." "success" ep_dashboard, Some u, s) ->
  let s' := snd (dashboard_post uid form s) in
  exists u',
    login lform s'
    = (Redirect "Logged in successfully." "success" ep_dashboard, Some u', s') /\
    User.id u' = User.id u /\ User.email u' = User.email u /\
    User.password_hash u' = User.password_hash u.
Proof.
  intros L s'. subst s'. unfold dashboard_post.
  destruct (Py.truthy _); cbn [snd]; [|now exists u].
  unfold login in *. unfold user_by_email in *. cbn [users].
  rewrite find_set_username.
  destruct (find _ (users s)) as [v|]; [|discriminate]. cbn [option_map].
  destruct (check_password_hash (User.password_hash v) _) eqn:C; [|discriminate].
  injection L as <-.
  destruct (User.id v =? uid); cbn [User.password_hash]; rewrite C;
    eexists; split; try reflexivity; repeat split.
Qed.

Lemma rename_keeps_login_witness :
  exists u',
    login (H := plain_hasher) ann_form
          (snd (dashboard_post 1 [("username", "Ann B.")] demo_store))
    = (Redirect "Logged in successfully." "success" ep_dashboard, Some u',
       snd (dashboard_post 1 [("username", "Ann B.")] demo_store)) /\
    User.username u' = "Ann B.".
Proof.
  destruct (rename_keeps_login (H := plain_hasher) 1 [("username", "Ann B.")]
              ann_form demo_store
              (User.mk 1 "ann@example.org" "pw-ann" "ann") eq_refl)
    as [u' [L _]].
  exists u'. split; [exact L|].
  vm_compute in L. injection L as <-. reflexivity.
Defined.

(** ** The catalog *)

Lemma find_app_some (A : Type) (f : A -> bool) (l l' : list A) x :
  find f l = Some x -> find f (l ++ l') = Some x.
Proof.
  induction l as [|a l IH]; cbn; [discriminate|].
  destruct (f a); [easy | exact IH].
Qed.

Lemma get_product_fresh l :
  find (fun p => Product.id p =? Sql.next_id (map Product.id l)) l = None.
Proof.
  destruct (find _ l) as [p|] eqn:F; [|reflexivity].
  apply find_some in F. destruct F as [Hin E]. apply Z.eqb_eq in E.
  pose proof (next_id_above (map Product.id l) (Product.id p) (in_map _ _ _ Hin)).
  lia.
Qed.

Lemma find_update_other new pid l :
  pid <> Product.id new ->
  find (fun r => Product.id r =? pid) (update_product new l)
  = find (fun r => Product.id r =? pid) l.
Proof.
  intros N. unfold update_product.
  induction l as [|r l IH]; cbn [map find]; [reflexivity|].
  destruct (Product.id r =? Product.id new) eqn:E.
  - apply Z.eqb_eq in E.
    assert (N1 : (Product.id new =? pid) = false) by (apply Z.eqb_neq; congruence).
    assert (N2 : (Product.id r =? pid) = false) by (apply Z.eqb_neq; congruence).
    now rewrite N1, N2.
  - now rewrite IH.
Qed.

Lemma find_delete_other pid pid' l :
  pid' <> pid ->
  find (fun r => Product.id r =? pid')
       (filter (fun r => negb (Product.id r =? pid)) l)
  = find (fun r => Product.id r =? pid') l.
Proof.
  intros N. induction l as [|r l IH]; cbn; [reflexivity|].
  destruct (Product.id r =? pid) eqn:E; cbn.
  - apply Z.eqb_eq in E.
    assert (N1 : (Product.id r =? pid') = false) by (apply Z.eqb_neq; congruence).
    now rewrite N1.
  - now rewrite IH.
Qed.

Lemma find_delete_same pid l :
  find (fun r => Product.id r =? pid)
       (filter (fun r => negb (Product.id r =? pid)) l) = None.
Proof.
  induction l as [|r l IH]; cbn; [reflexivity|].
  destruct (Product.id r =? pid) eqn:E; cbn; [exact IH | now rewrite E].
Qed.

(** X11: a valid [add_product] whose price the column takes appends one
    product, of a new rowid, owned by the user, with the trimmed fields and
    the price as the column holds it; the product can be looked up by its
    rowid and is listed by [index], without a filter and under its
    category, and by the seller's dashboard; every product looked up before
    is looked up as before.  A price that reads as NaN ends the request in
    the [IntegrityError] of the commit, with the store as it was. *)
Theorem added_product_is_listed uid now form s x :
  let title := Py.strip (form_get form "title") in
  let description := Py.strip (form_get form "description") in
  let category := Py.strip (form_get form "category") in
  let image_url := Py.strip (form_get form "image_url") in
  Py.truthy title = true -> Py.truthy description = true ->
  in_categories category = true ->
  Py.float_of_string (Py.strip (form_get form "price")) = Some x ->
  match Sql.real_column x with
  | None => add_product uid now form s = (Raise IntegrityError, s)
  | Some y =>
      let p := Product.mk (Sql.next_id (map Product.id (products s))) title
                          description category y
                          (Some (image_or_placeholder image_url)) now uid in
      let s' := snd (add_product uid now form s) in
      fst (add_product uid now form s)
      = Redirect "Product added." "success" ep_dashboard /\
      products s' = products s ++ [p] /\
      get_product (Product.id p) s' = Some p /\
      In p (index [] s') /\
      In p (index [("category", category)] s') /\
      In p (dashboard_get uid s') /\
      (forall pid q, get_product pid s = Some q -> get_product pid s' = Some q)
  end.
Proof.
  intros title description category image_url T D C F.
  destruct (Sql.real_column x) as [y|] eqn:R.
  2:{ unfold add_product. fold title description category image_url.
      now rewrite T, D, C, (float_of_string_truthy _ _ F), F, R. }
  intros p s'.
  assert (E : add_product uid now form s
              = (Redirect "Product added." "success" ep_dashboard,
                 mkStore (users s) (products s ++ [p]) (cart_items s) (orders s)
                         (order_items s))).
  { unfold add_product. fold title description category image_url.
    now rewrite T, D, C, (float_of_string_truthy _ _ F), F, R. }
  subst s'. rewrite E. cbn [fst snd].
  assert (Hin : In p (products s ++ [p])) by (apply in_or_app; right; now left).
  split; [reflexivity|]. split; [reflexivity|]. split; [|split; [|split; [|split]]].
  - unfold get_product. cbn [products].
    rewrite find_app_none by apply get_product_fresh.
    cbn. now rewrite Z.eqb_refl.
  - apply index_In. cbn. split; [exact Hin|]. split; [now left | discriminate].
  - apply index_In. cbn [products]. split; [exact Hin|]. split; [now left|].
    intros _. change (category = Py.strip category).
    unfold category. now rewrite strip_idem.
  - unfold dashboard_get. apply order_by_In. apply filter_In.
    split; [exact Hin|]. cbn. apply Z.eqb_refl.
  - intros pid q G. unfold get_product in *. cbn [products].
    now apply find_app_some.
Qed.

Lemma added_product_is_listed_witness :
  In lamp (index [("category", "Home & Kitchen")]
                 (snd (add_product 1 200 lamp_form
                         (snd (add_product 1 100 kindle_form empty_store))))).
Proof.
  exact (proj1 (proj2 (proj2 (proj2 (proj2
           (added_product_is_listed 1 200 lamp_form
              (snd (add_product 1 100 kindle_form empty_store))
              (S754_finite false 7036874417766400 (-49))
              eq_refl eq_refl eq_refl eq_refl)))))).
Defined.

(** X12: a valid [edit_product] by the owner whose price the column takes
    replaces the title, description, category, price (as the column holds
    it) and image of the product and keeps its rowid, creation time and
    seller; the other products are looked up as before, the number of
    products is the same, and no other table changes.  A price that reads
    as NaN ends the request in the [IntegrityError] of the commit, with the
    store as it was. *)
Theorem edit_product_replaces uid pid form s p x :
  let title := Py.strip (form_get form "title") in
  let description := Py.strip (form_get form "description") in
  let category := Py.strip (form_get form "category") in
  let image_url := Py.strip (form_get form "image_url") in
  get_product pid s = Some p -> Product.seller_id p = uid ->
  Py.truthy title = true -> Py.truthy description = true ->
  in_categories category = true ->
  Py.float_of_string (Py.strip (form_get form "price")) = Some x ->
  match Sql.real_column x with
  | None => edit_product uid pid form s = (Raise IntegrityError, s)
  | Some y =>
      let s' := snd (edit_product uid pid form s) in
      fst (edit_product uid pid form s)
      = Redirect "Product updated." "success" ep_dashboard /\
      get_product pid s'
      = Some (Product.mk pid title description category y
                         (Some (image_or_placeholder image_url))
                         (Product.created_at p) uid) /\
      (forall pid', pid' <> pid -> get_product pid' s' = get_product pid' s) /\
      List.length (products s') = List.length (products s) /\
      users s' = users s /\ cart_items s' = cart_items s /\
      orders s' = orders s /\ order_items s' = order_items s
  end.
Proof.
  intros title description category image_url G O T D C F.
  destruct (Sql.real_column x) as [y|] eqn:R.
  2:{ unfold edit_product. fold title description category image_url.
      rewrite G. apply Z.eqb_eq in O. rewrite O.
      now rewrite T, D, C, (float_of_string_truthy _ _ F), F, R. }
  intros s'.
  pose proof (get_product_id _ _ _ G) as I.
  set (new := edited p title description category y image_url).
  assert (E : edit_product uid pid form s
              = (Redirect "Product updated." "success" ep_dashboard,
                 mkStore (users s) (update_product new (products s)) (cart_items s)
                         (orders s) (order_items s))).
  { unfold edit_product. fold title description category image_url.
    rewrite G. apply Z.eqb_eq in O. rewrite O.
    now rewrite T, D, C, (float_of_string_truthy _ _ F), F, R. }
  subst s'. rewrite E. cbn [fst snd users products cart_items orders order_items].
  split; [reflexivity|]. split; [|split; [|split]].
  - unfold get_product in *. cbn [products].
    replace pid with (Product.id new) in * by exact I.
    rewrite (find_update_product new p _ G). unfold new, edited.
    now rewrite O.
  - intros pid' N. unfold get_product. cbn [products].
    apply find_update_other. now rewrite <- I in N.
  - unfold update_product. apply length_map.
  - repeat split.
Qed.

Lemma edit_product_replaces_witness :
  get_product 1 (snd (edit_product 1 1 lamp_form demo_store))
  = Some (Product.mk 1 "IKEA Lamp" "Minimal bedside lamp." "Home & Kitchen"
                     (S754_finite false 7036874417766400 (-49))
                     (Some PLACEHOLDER_IMG) 100 1).
Proof.
  exact (proj1 (proj2 (edit_product_replaces 1 1 lamp_form demo_store kindle
                         (S754_finite false 7036874417766400 (-49))
                         eq_refl eq_refl eq_refl eq_refl eq_refl eq_refl))).
Defined.

(** X13: a [delete_product] by the owner removes the product: it is no
    longer looked up by its rowid and no listing of [index] returns a
    product of that rowid; the other products are looked up as before and
    no other table changes. *)
Theorem delete_product_removes uid pid s p :
  get_product pid s = Some p -> Product.seller_id p = uid ->
  let s' := snd (delete_product uid pid s) in
  fst (delete_product uid pid s) = Redirect "Product deleted." "info" ep_dashboard /\
  get_product pid s' = None /\
  (forall pid', pid' <> pid -> get_product pid' s' = get_product pid' s) /\
  (forall args q, In q (index args s') -> Product.id q <> pid) /\
  users s' = users s /\ cart_items s' = cart_items s /\
  orders s' = orders s /\ order_items s' = order_items s.
Proof.
  intros G O s'. subst s'. unfold delete_product. rewrite G.
  apply Z.eqb_eq in O. rewrite O. rewrite (get_product_id _ _ _ G).
  cbn [negb fst snd users cart_items orders order_items].
  split; [reflexivity|]. split; [|split; [|split]].
  - apply find_delete_same.
  - intros pid' N. now apply find_delete_other.
  - intros args q Hin. apply index_In in Hin. destruct Hin as [Hin _].
    cbn [products] in Hin. apply filter_In in Hin. destruct Hin as [_ Hin].
    apply negb_true_iff, Z.eqb_neq in Hin. exact Hin.
  - repeat split.
Qed.

Lemma delete_product_removes_witness :
  get_product 1 (snd (delete_product 1 1 demo_store)) = None.
Proof.
  exact (proj1 (proj2 (delete_product_removes 1 1 demo_store kindle
                         eq_refl eq_refl))).
Defined.

(** [init_db] leaves a catalog that is not empty alone. *)
Lemma init_db_products {H : PasswordHasher} salt clock s :
  products s <> [] -> products (init_db salt clock s) = products s.
Proof.
  intros L. unfold init_db.
  set (s1 := match user_by_email DEMO_EMAIL s with Some _ => s | None => _ end).
  assert (P1 : products s1 = products s)
    by (subst s1; now destruct (user_by_email DEMO_EMAIL s)).
  rewrite P1. destruct (products s) as [|a l] eqn:E; [now elim L|].
  cbn [List.length]. rewrite Nat2Z.inj_succ.
  destruct (Z.succ _ =? 0) eqn:Z0; [apply Z.eqb_eq in Z0; lia | exact P1].
Qed.

(** X14: no request changes the seller or the creation time of a product:
    a product looked up by its rowid before and after any one request has
    the same seller and creation time. *)
Theorem seller_never_changes {H : PasswordHasher} r s pid p p' :
  get_product pid s = Some p ->
  get_product pid (handle r s) = Some p' ->
  Product.seller_id p' = Product.seller_id p /\
  Product.created_at p' = Product.created_at p.
Proof.
  intros G G'.
  assert (Same : products (handle r s) = products s -> p' = p).
  { intros E. unfold get_product in *. rewrite E, G in G'. now injection G'. }
  destruct r; cbn [handle] in *.
  - rewrite Same; [easy|]. unfold register.
    destruct (_ || _); [reflexivity|]. now destruct (user_by_email _ s).
  - rewrite Same; [easy|]. unfold login.
    destruct (user_by_email _ s); [|reflexivity].
    now destruct (check_password_hash _ _).
  - rewrite Same; [easy|]. unfold dashboard_post. now destruct (Py.truthy _).
  - unfold add_product in *.
    destruct (_ || _); [now rewrite Same|].
    destruct (Py.float_of_string _) as [x|]; [|now rewrite Same].
    destruct (Sql.real_column x); [|now rewrite Same].
    unfold get_product in *. cbn [snd products] in G'.
    rewrite (find_app_some _ _ _ _ _ G) in G'. now injection G' as <-.
  - unfold edit_product in *.
    destruct (get_product pid0 s) as [p0|] eqn:G0; [|now rewrite Same].
    destruct (negb _); [now rewrite Same|].
    destruct (_ || _); [now rewrite Same|].
    destruct (Py.float_of_string _) as [x|]; [|now rewrite Same].
    destruct (Sql.real_column x); [|now rewrite Same].
    cbn [snd] in G'. set (new := edited _ _ _ _ _ _) in G'.
    pose proof (get_product_id _ _ _ G0) as I0.
    unfold get_product in *. cbn [products] in G'.
    destruct (Z.eq_dec pid pid0) as [->|N].
    + replace pid0 with (Product.id new) in G', G0 by exact I0.
      rewrite (find_update_product new p0 _ G0) in G'. injection G' as <-.
      change (Product.id new) with (Product.id p0) in G0.
      rewrite I0, G in G0. now injection G0 as <-.
    + rewrite find_update_other in G' by (cbn; congruence).
      rewrite G in G'. now injection G' as <-.
  - unfold delete_product in *.
    destruct (get_product pid0 s) as [p0|] eqn:G0; [|now rewrite Same].
    destruct (negb _); [now rewrite Same|].
    pose proof (get_product_id _ _ _ G0) as I0. rewrite I0 in G'.
    unfold get_product in *. cbn [snd products] in G'.
    destruct (Z.eq_dec pid pid0) as [->|N].
    + now rewrite find_delete_same in G'.
    + rewrite find_delete_other in G' by exact N.
      rewrite G in G'. now injection G' as <-.
  - rewrite Same; [easy|]. unfold cart_add.
    destruct (get_product pid0 s); [|reflexivity].
    destruct (form_quantity form); [|reflexivity].
    now destruct (Sql.bind_integer _).
  - rewrite Same; [easy|]. unfold cart_update.
    destruct (get_cart_item item_id s); [|reflexivity].
    destruct (negb _); [reflexivity|].
    destruct (form_quantity form); [|reflexivity].
    now destruct (Sql.bind_integer _).
  - rewrite Same; [easy|]. unfold cart_remove.
    destruct (get_cart_item item_id s); [|reflexivity]. now destruct (negb _).
  - rewrite Same; [easy|]. unfold checkout.
    destruct (cart_of uid s); [reflexivity|].
    now destruct (checkout_loop _ _ _ _ _) as [[tot ois]|].
  - rewrite Same; [easy|]. apply init_db_products.
    intros E. unfold get_product in G. now rewrite E in G.
Qed.

Lemma seller_never_changes_witness :
  Product.seller_id
    (Product.mk 1 "IKEA Lamp" "Minimal bedside lamp." "Home & Kitchen"
                (S754_finite false 7036874417766400 (-49))
                (Some PLACEHOLDER_IMG) 100 1)
  = Product.seller_id kindle.
Proof.
  exact (proj1 (seller_never_changes (H := plain_hasher)
                  (EditProduct 1 1 lamp_form) demo_store 1 kindle _
                  eq_refl eq_refl)).
Defined.

(** X15: the dashboard lists the products of the user, all of them and no
    others, newest first. *)
Theorem dashboard_lists_own_products uid s :
  newest_first (dashboard_get uid s) /\
  (forall p, In p (dashboard_get uid s) <->
             In p (products s) /\ Product.seller_id p = uid).
Proof.
  unfold dashboard_get. split; [apply order_by_sorted|].
  intros p. now rewrite order_by_In, filter_In, Z.eqb_eq.
Qed.



(** X17: [Product.image] is the placeholder when the product has no image
    or an empty one, and the stored image, which is not empty, when the
    product is valid. *)
Theorem image_of_product p :
  (Product.image_url p = None \/ Product.image_url p = Some "" ->
   Product.image p = PLACEHOLDER_IMG) /\
  (valid_product p = true ->
   Product.image_url p = Some (Product.image p) /\ Product.image p <> "").
Proof.
  unfold Product.image, valid_product, stripped. split.
  - intros [-> | ->]; reflexivity.
  - intros V. destruct (Product.image_url p) as [u|].
    + apply andb_prop in V. destruct V as [_ V].
      apply andb_prop in V. destruct V as [T E]. rewrite T.
      apply String.eqb_eq in E. rewrite E. split; [reflexivity|].
      intros ->. discriminate.
    + rewrite andb_false_r in V. discriminate.
Qed.

Lemma image_of_product_witness :
  Product.image_url kindle = Some (Product.image kindle).
Proof. exact (proj1 (proj2 (image_of_product kindle) eq_refl)). Defined.

(** ** The cart *)

Lemma find_set_quantity_same k q l e :
  find (fun i => CartItem.id i =? k) l = Some e ->
  find (fun i => CartItem.id i =? k) (set_quantity k q l)
  = Some (CartItem.mk (CartItem.id e) q (CartItem.user_id e) (CartItem.product_id e)).
Proof.
  unfold set_quantity. induction l as [|i l IH]; cbn [map find]; [discriminate|].
  destruct (CartItem.id i =? k) eqn:E; cbn [CartItem.id]; rewrite E.
  - now intros [= ->].
  - exact IH.
Qed.

Lemma find_set_quantity_other k k' q l :
  k' <> k ->
  find (fun i => CartItem.id i =? k') (set_quantity k q l)
  = find (fun i => CartItem.id i =? k') l.
Proof.
  intros N. unfold set_quantity.
  induction l as [|i l IH]; cbn [map find]; [reflexivity|].
  destruct (CartItem.id i =? k) eqn:E; cbn [CartItem.id]; [|now rewrite IH].
  apply Z.eqb_eq in E.
  assert (N1 : (CartItem.id i =? k') = false) by (apply Z.eqb_neq; congruence).
  now rewrite N1.
Qed.

Lemma find_remove_line_other k k' l :
  k' <> k ->
  find (fun i => CartItem.id i =? k')
       (filter (fun i => negb (CartItem.id i =? k)) l)
  = find (fun i => CartItem.id i =? k') l.
Proof.
  intros N. induction l as [|i l IH]; cbn; [reflexivity|].
  destruct (CartItem.id i =? k) eqn:E; cbn.
  - apply Z.eqb_eq in E.
    assert (N1 : (CartItem.id i =? k') = false) by (apply Z.eqb_neq; congruence).
    now rewrite N1.
  - now rewrite IH.
Qed.

Lemma find_remove_line_same k l :
  find (fun i => CartItem.id i =? k)
       (filter (fun i => negb (CartItem.id i =? k)) l) = None.
Proof.
  induction l as [|i l IH]; cbn; [reflexivity|].
  destruct (CartItem.id i =? k) eqn:E; cbn; [exact IH | now rewrite E].
Qed.

(** X18: [cart_update] on a line of the user with a quantity field read
    as [q] (1 when absent): when [max 1 q] fits the 64-bit column, it sets
    the quantity of the line to [max 1 q] and keeps its user and product,
    the other lines are looked up as before, the number of lines is the
    same, and no other table changes; when it does not fit, the request
    ends in the [OverflowError] of the bind, with the store as it was. *)
Theorem cart_update_sets_quantity uid item_id form s item q :
  get_cart_item item_id s = Some item ->
  CartItem.user_id item = uid ->
  form_quantity form = Some q ->
  if Sql.fits_int64 (Z.max 1 q)
  then
    let s' := snd (cart_update uid item_id form s) in
    fst (cart_update uid item_id form s) = Redirect "Cart updated." "success" ep_cart /\
    get_cart_item item_id s'
    = Some (CartItem.mk item_id (Z.max 1 q) uid (CartItem.product_id item)) /\
    (forall k, k <> item_id -> get_cart_item k s' = get_cart_item k s) /\
    List.length (cart_items s') = List.length (cart_items s) /\
    users s' = users s /\ products s' = products s /\
    orders s' = orders s /\ order_items s' = order_items s
  else cart_update uid item_id form s = (Raise OverflowError, s).
Proof.
  intros G U Q. pose proof U as U0. apply Z.eqb_eq in U0.
  pose proof (get_cart_item_id _ _ _ G) as I.
  destruct (Sql.fits_int64 (Z.max 1 q)) eqn:F.
  2:{ unfold cart_update, Sql.bind_integer. now rewrite G, Q, U0, F. }
  intros s'. subst s'. unfold cart_update, Sql.bind_integer.
  rewrite G, Q, U0, F, I.
  cbn [negb fst snd users products orders order_items].
  split; [reflexivity|]. split; [|split; [|split]].
  - unfold get_cart_item in *. cbn [cart_items].
    rewrite (find_set_quantity_same _ _ _ _ G). now rewrite I, U.
  - intros k N. unfold get_cart_item. cbn [cart_items].
    now apply find_set_quantity_other.
  - cbn [cart_items]. unfold set_quantity. apply length_map.
  - repeat split.
Qed.

Lemma cart_update_sets_quantity_witness :
  get_cart_item 1 (snd (cart_update 2 1 [("quantity", "0")] demo_store))
  = Some (CartItem.mk 1 1 2 1).
Proof.
  exact (proj1 (proj2 (cart_update_sets_quantity 2 1 [("quantity", "0")] demo_store
                         (CartItem.mk 1 1 2 1) 0 eq_refl eq_refl eq_refl))).
Defined.

(** X19: [cart_remove] on a line of the user deletes it: the line is no
    longer looked up by its rowid; the other lines are looked up as before
    and no other table changes. *)
Theorem cart_remove_deletes_line uid item_id s item :
  get_cart_item item_id s = Some item ->
  CartItem.user_id item = uid ->
  let s' := snd (cart_remove uid item_id s) in
  fst (cart_remove uid item_id s) = Redirect "Item removed." "info" ep_cart /\
  get_cart_item item_id s' = None /\
  (forall k, k <> item_id -> get_cart_item k s' = get_cart_item k s) /\
  users s' = users s /\ products s' = products s /\
  orders s' = orders s /\ order_items s' = order_items s.
Proof.
  intros G U s'. subst s'. unfold cart_remove. rewrite G.
  apply Z.eqb_eq in U. rewrite U.
  rewrite (get_cart_item_id _ _ _ G).
  cbn [negb fst snd users products orders order_items].
  split; [reflexivity|]. split; [|split].
  - apply find_remove_line_same.
  - intros k N. now apply find_remove_line_other.
  - repeat split.
Qed.

Lemma cart_remove_deletes_line_witness :
  get_cart_item 1 (snd (cart_remove 2 1 demo_store)) = None.
Proof.
  exact (proj1 (proj2 (cart_remove_deletes_line 2 1 demo_store (CartItem.mk 1 1 2 1)
                         eq_refl eq_refl))).
Defined.

(** X20: a cart line is its user's alone: [cart_update] and [cart_remove]
    by any other user answer "Not authorized.", an authorization error,
    whatever the form holds, and return the store as it was. *)
Theorem cart_line_is_private uid item_id form s item :
  get_cart_item item_id s = Some item ->
  CartItem.user_id item <> uid ->
  cart_update uid item_id form s = (not_authorized ep_cart, s) /\
  cart_remove uid item_id s = (not_authorized ep_cart, s) /\
  error_of (not_authorized ep_cart) = Some AuthorizationError.
Proof.
  intros G N. unfold cart_update, cart_remove. rewrite G, (neqb_true _ _ N).
  repeat split.
Qed.

Lemma cart_line_is_private_witness :
  cart_update 1 1 [("quantity", "9")] demo_store = (not_authorized ep_cart, demo_store).
Proof.
  assert (N : CartItem.user_id (CartItem.mk 1 1 2 1) <> 1) by (cbn; discriminate).
  exact (proj1 (cart_line_is_private 1 1 [("quantity", "9")] demo_store
                  (CartItem.mk 1 1 2 1) eq_refl N)).
Defined.

(** ** More on checkout *)

Lemma checkout_loop_none s order_id items : forall oi_id acc,
  checkout_loop s order_id oi_id items acc = None ->
  exists item, In item items /\ get_product (CartItem.product_id item) s = None.
Proof.
  induction items as [|i items IH]; intros oi_id acc E; cbn [checkout_loop] in E;
    [discriminate|].
  destruct (get_product (CartItem.product_id i) s) as [p|] eqn:G.
  - destruct (checkout_loop s order_id (oi_id + 1) items _) as [[tot ois]|] eqn:L;
      [discriminate|].
    destruct (IH _ _ L) as [item [Hin N]]. exists item. split; [now right | exact N].
  - exists i. split; [now left | exact G].
Qed.

(** X21: [checkout] is all or nothing.  It raises [AttributeError] exactly
    when some line of the user's cart refers to no product; whenever the
    answer is not the success, the store is returned as it was; and on
    success the user's cart is empty and the order items grew by one per
    cart line. *)
Theorem checkout_all_or_nothing uid now s :
  let done := Redirect "Purchase complete!" "success" ep_purchases in
  let s' := snd (checkout uid now s) in
  (fst (checkout uid now s) = Raise AttributeError <->
   exists item, In item (cart_of uid s) /\
                get_product (CartItem.product_id item) s = None) /\
  (fst (checkout uid now s) <> done -> s' = s) /\
  (fst (checkout uid now s) = done ->
   cart_of uid s <> [] /\ cart_of uid s' = [] /\
   List.length (orders s') = S (List.length (orders s)) /\
   List.length (order_items s')
   = (List.length (order_items s) + List.length (cart_of uid s))%nat).
Proof.
  intros done s'. subst done s'. unfold checkout.
  destruct (cart_of uid s) as [|item items] eqn:C.
  - cbn [fst snd]. split; [|split]; [split | reflexivity | discriminate].
    + discriminate.
    + intros [i [[] _]].
  - rewrite <- C.
    destruct (checkout_loop _ _ _ _ _) as [[total ois]|] eqn:L; cbn [fst snd].
    + split; [|split].
      * split; [discriminate|]. intros [i [Hin N]].
        now rewrite (checkout_loop_orphan _ _ _ _ _ i Hin N) in L.
      * intros N. now elim N.
      * intros _. split; [rewrite C; discriminate|].
        split; [unfold cart_of at 1; cbn [cart_items]; apply cart_emptied|].
        cbn [orders order_items]. rewrite !length_app. cbn [List.length].
        destruct (checkout_loop_result _ _ _ _ _ _ _ L) as [_ [_ [_ [_ Len]]]].
        rewrite Len. split; [lia | reflexivity].
    + split; [|split].
      * split; [|reflexivity]. intros _. now apply checkout_loop_none in L.
      * reflexivity.
      * discriminate.
Qed.

Lemma checkout_all_or_nothing_witness :
  snd (checkout 2 300 orphaned_store) = orphaned_store.
Proof.
  apply (proj1 (proj2 (checkout_all_or_nothing 2 300 orphaned_store))).
  vm_compute. discriminate.
Defined.

(** X22: after a [checkout] that succeeds, a second [checkout] of the same
    user finds the cart empty: it answers with the empty-cart error and
    makes no second order. *)
Theorem second_checkout_is_refused uid now now' s :
  fst (checkout uid now s) = Redirect "Purchase complete!" "success" ep_purchases ->
  checkout uid now' (snd (checkout uid now s))
  = (Redirect "Your cart is empty." "error" ep_cart, snd (checkout uid now s)).
Proof.
  intros D. unfold checkout at 1.
  assert (E : cart_of uid (snd (checkout uid now s)) = []).
  { revert D. unfold checkout.
    destruct (cart_of uid s) as [|item items] eqn:C; [discriminate|].
    rewrite <- C. destruct (checkout_loop _ _ _ _ _) as [[total ois]|];
      [|discriminate].
    intros _. unfold cart_of at 1. cbn [snd cart_items]. apply cart_emptied. }
  now rewrite E.
Qed.

Lemma second_checkout_is_refused_witness :
  fst (checkout 2 400 (snd (checkout 2 300 demo_store)))
  = Redirect "Your cart is empty." "error" ep_cart.
Proof.
  rewrite (second_checkout_is_refused 2 300 400 demo_store eq_refl).
  reflexivity.
Defined.

Lemma NoDup_map_inj (A B : Type) (f : A -> B) (l : list A) x y :
  NoDup (map f l) -> In x l -> In y l -> f x = f y -> x = y.
Proof.
  induction l as [|a l IH]; cbn; [easy|]. intros N Hx Hy E.
  apply NoDup_cons_iff in N. destruct N as [F N].
  destruct Hx as [->|Hx], Hy as [->|Hy].
  - reflexivity.
  - elim F. rewrite E. now apply in_map.
  - elim F. rewrite <- E. now apply in_map.
  - now apply IH.
Qed.

Lemma filter_filter_keep (A : Type) (f g : A -> bool) (l : list A) :
  (forall x, In x l -> f x = true -> g x = true) ->
  filter f (filter g l) = filter f l.
Proof.
  induction l as [|a l IH]; intros K; cbn; [reflexivity|].
  assert (K' : forall x, In x l -> f x = true -> g x = true)
    by (intros x Hin; apply K; now right).
  destruct (g a) eqn:G; cbn.
  - destruct (f a); [f_equal|]; now apply IH.
  - destruct (f a) eqn:F; [|now apply IH].
    rewrite (K a (or_introl eq_refl) F) in G. discriminate.
Qed.

(** X23: [checkout] touches the cart of its user only: with distinct
    rowids in the cart table, the cart of every other user is as before;
    the users and the products are as before in any case. *)
Theorem checkout_spares_other_carts uid now s v :
  NoDup (map CartItem.id (cart_items s)) ->
  v <> uid ->
  let s' := snd (checkout uid now s) in
  cart_of v s' = cart_of v s /\ users s' = users s /\ products s' = products s.
Proof.
  intros N V s'. subst s'. unfold checkout.
  destruct (cart_of uid s) as [|item items] eqn:C; [now repeat split|].
  rewrite <- C.
  destruct (checkout_loop _ _ _ _ _) as [[total ois]|]; [|now repeat split].
  cbn [snd users products]. split; [|now split].
  unfold cart_of at 1. cbn [cart_items]. unfold delete_cart_items.
  apply filter_filter_keep. intros i Hin U. apply negb_true_iff.
  destruct (existsb _ _) eqn:X; [|reflexivity].
  apply existsb_exists in X. destruct X as [k [Hk E]]. apply Z.eqb_eq in E.
  apply in_map_iff in Hk. destruct Hk as [j [Ej Hj]].
  unfold cart_of in Hj. apply filter_In in Hj. destruct Hj as [Hj Uj].
  assert (i = j) by (apply (NoDup_map_inj _ _ CartItem.id (cart_items s));
                     [exact N | exact Hin | exact Hj | congruence]).
  subst j. apply Z.eqb_eq in U, Uj. congruence.
Qed.

Lemma checkout_spares_other_carts_witness :
  cart_of 1 (snd (checkout 2 300 busy_store)) = [CartItem.mk 2 1 1 2].
Proof.
  assert (N : NoDup (map CartItem.id (cart_items busy_store)))
    by (repeat (constructor; [cbn; intuition discriminate|]); constructor).
  assert (V : 1 <> 2) by discriminate.
  rewrite (proj1 (checkout_spares_other_carts 2 300 busy_store 1 N V)).
  reflexivity.
Defined.

(** ** Purchases *)

Lemma insert_order_desc_In o l x : In x (insert_order_desc o l) <-> x = o \/ In x l.
Proof.
  induction l as [|q l IH]; cbn.
  - intuition.
  - destruct (Order.created_at q <=? Order.created_at o); cbn; [intuition|].
    rewrite IH. intuition.
Qed.

Lemma insert_order_desc_sorted o l :
  newest_order_first l -> newest_order_first (insert_order_desc o l).
Proof.
  unfold newest_order_first. induction l as [|q l IH]; intros S; cbn.
  - repeat constructor.
  - apply StronglySorted_inv in S. destruct S as [S F].
    destruct (Order.created_at q <=? Order.created_at o) eqn:C.
    + apply Z.leb_le in C. constructor; [now constructor|].
      constructor; [lia|]. rewrite Forall_forall in *.
      intros y Hin. specialize (F y Hin). cbn in F. lia.
    + apply Z.leb_gt in C. constructor; [now apply IH|].
      rewrite Forall_forall in *. intros y Hin.
      apply insert_order_desc_In in Hin. destruct Hin as [->|Hin]; [lia|].
      now apply F.
Qed.

Lemma sorted_orders_In l o :
  In o (fold_right insert_order_desc [] l) <-> In o l.
Proof.
  induction l as [|q l IH]; cbn; [easy|].
  rewrite insert_order_desc_In, IH. intuition.
Qed.

(** X24: [purchases] lists the orders of the user, all of them and no
    others, newest first. *)
Theorem purchases_lists_own_orders uid s :
  newest_order_first (purchases uid s) /\
  (forall o, In o (purchases uid s) <-> In o (orders s) /\ Order.user_id o = uid).
Proof.
  unfold purchases. split.
  - induction (filter _ (orders s)) as [|o l IH]; cbn; [constructor|].
    now apply insert_order_desc_sorted.
  - intros o. now rewrite sorted_orders_In, filter_In, Z.eqb_eq.
Qed.



(** ** Seeding *)

Lemma init_db_result {H : PasswordHasher} salt clock s :
  exists demo,
    user_by_email DEMO_EMAIL (init_db salt clock s) = Some demo /\
    products (init_db salt clock s) <> [] /\
    (products s = [] ->
     products (init_db salt clock s) = seed (User.id demo) clock 0 samples []) /\
    (user_by_email DEMO_EMAIL s = None ->
     demo = User.mk (Sql.next_id (map User.id (users s))) DEMO_EMAIL
                    (generate_password_hash salt "demo123") "demo").
Proof.
  unfold init_db.
  set (s1 := match user_by_email DEMO_EMAIL s with Some _ => s | None => _ end).
  assert (U1 : exists demo,
             user_by_email DEMO_EMAIL s1 = Some demo /\
             (user_by_email DEMO_EMAIL s = None ->
              demo = User.mk (Sql.next_id (map User.id (users s))) DEMO_EMAIL
                             (generate_password_hash salt "demo123") "demo")).
  { subst s1. destruct (user_by_email DEMO_EMAIL s) as [d|] eqn:U.
    - exists d. split; [exact U | discriminate].
    - eexists. split; [|reflexivity]. unfold user_by_email in *. cbn [users].
      rewrite find_app_none by exact U. reflexivity. }
  assert (P1 : products s1 = products s)
    by (subst s1; now destruct (user_by_email DEMO_EMAIL s)).
  destruct U1 as [demo [U1 New]]. exists demo. rewrite U1.
  destruct (products s1) as [|p l] eqn:P.
  - cbn [List.length Z.of_nat Z.eqb]. unfold user_by_email in *. cbn [users products].
    split; [exact U1|]. split; [discriminate|]. split; [reflexivity | exact New].
  - cbn [List.length]. rewrite Nat2Z.inj_succ.
    destruct (Z.succ _ =? 0) eqn:Z0; [apply Z.eqb_eq in Z0; lia|].
    split; [exact U1|]. rewrite P. split; [discriminate|]. split; [|exact New].
    intros E. rewrite E in P1. discriminate.
Qed.

Lemma init_db_fixed {H : PasswordHasher} salt clock s demo :
  user_by_email DEMO_EMAIL s = Some demo -> products s <> [] ->
  init_db salt clock s = s.
Proof.
  intros U L. unfold init_db. rewrite U.
  destruct (products s) as [|p l]; [now elim L|].
  cbn [List.length]. rewrite Nat2Z.inj_succ.
  destruct (Z.succ _ =? 0) eqn:Z0; [apply Z.eqb_eq in Z0; lia | reflexivity].
Qed.

(** X26: [init_db] is idempotent: a second run, whatever its salt and
    clock, changes nothing, on any store. *)
Theorem init_db_is_idempotent {H : PasswordHasher} salt clock salt' clock' s :
  init_db salt' clock' (init_db salt clock s) = init_db salt clock s.
Proof.
  destruct (init_db_result salt clock s) as [demo [U [L _]]].
  exact (init_db_fixed salt' clock' _ demo U L).
Qed.

(** X27: on a store without products [init_db] makes sure of the demo
    user and lists the four samples, in order, as valid products owned by
    that user and created at the times of the clock; when the demo user is
    new and the hasher keeps its contract, the demo credentials log in. *)
Theorem init_db_seeds {H : PasswordHasher} salt clock s :
  hasher_ok H ->
  products s = [] ->
  let s' := init_db salt clock s in
  exists demo,
    user_by_email DEMO_EMAIL s' = Some demo /\
    map Product.title (products s')
    = ["Vintage Denim Jacket"; "Kindle Paperwhite"; "IKEA Lamp"; "Dumbbell Set"] /\
    map Product.created_at (products s') = [clock 0; clock 1; clock 2; clock 3] /\
    Forall (fun p => Product.seller_id p = User.id demo /\ valid_product p = true)
           (products s') /\
    (user_by_email DEMO_EMAIL s = None ->
     login [("email", DEMO_EMAIL); ("password", "demo123")] s'
     = (Redirect "Logged in successfully." "success" ep_dashboard, Some demo, s')).
Proof.
  intros Hok E s'. subst s'.
  destruct (init_db_result salt clock s) as [demo [U [_ [P New]]]].
  exists demo. split; [exact U|]. rewrite (P E).
  split; [reflexivity|]. split; [reflexivity|]. split.
  - repeat constructor.
  - intros N. unfold login.
    change (Py.lower (Py.strip (form_get [("email", DEMO_EMAIL); ("password", "demo123")]
                                         "email")))
      with DEMO_EMAIL.
    change (Py.strip (form_get [("email", DEMO_EMAIL); ("password", "demo123")]
                               "password"))
      with "demo123".
    rewrite U, (New N). cbn [User.password_hash]. now rewrite Hok.
Qed.

Lemma init_db_seeds_witness :
  exists demo,
    login (H := plain_hasher) [("email", DEMO_EMAIL); ("password", "demo123")]
          (init_db (H := plain_hasher) "salt" (fun n => 10 + n) empty_store)
    = (Redirect "Logged in successfully." "success" ep_dashboard, Some demo,
       init_db (H := plain_hasher) "salt" (fun n => 10 + n) empty_store).
Proof.
  destruct (init_db_seeds (H := plain_hasher) "salt" (fun n => 10 + n) empty_store
              plain_hasher_ok eq_refl) as [demo [_ [_ [_ [_ L]]]]].
  exists demo. exact (L eq_refl).
Defined.

(** ** Registration, then login *)

Lemma write_keeps_user s s' e v :
  write s s' ->
  user_by_email e s = Some v ->
  exists v',
    user_by_email e s' = Some v' /\
    User.id v' = User.id v /\ User.email v' = User.email v /\
    User.password_hash v' = User.password_hash v.
Proof.
  intros W U. unfold user_by_email in *.
  destruct W; cbn [users]; try (exists v; now repeat split).
  - exists v. split; [now apply find_app_some | now repeat split].
  - rewrite find_set_username, U. cbn [option_map].
    eexists. split; [reflexivity|]. now destruct (User.id v =? uid).
Qed.

Lemma writes_keep_user s s' e v :
  writes s s' ->
  user_by_email e s = Some v ->
  exists v',
    user_by_email e s' = Some v' /\
    User.id v' = User.id v /\ User.email v' = User.email v /\
    User.password_hash v' = User.password_hash v.
Proof.
  intros W U. induction W as [|s1 s2 W IH W1]; [exists v; now repeat split|].
  destruct IH as [v1 [U1 [I1 [E1 P1]]]].
  destruct (write_keeps_user _ _ _ _ W1 U1) as [v2 [U2 [I2 [E2 P2]]]].
  exists v2. split; [exact U2|]. repeat split; congruence.
Qed.

(** A user found by email is found, with the same rowid, email and hash,
    after any requests. *)
Lemma run_keeps_user {H : PasswordHasher} rs : forall s e v,
  user_by_email e s = Some v ->
  exists v',
    user_by_email e (run rs s) = Some v' /\
    User.id v' = User.id v /\ User.email v' = User.email v /\
    User.password_hash v' = User.password_hash v.
Proof.
  unfold run. induction rs as [|r rs IH]; intros s e v U;
    [exists v; now repeat split|].
  cbn [fold_left].
  destruct (writes_keep_user _ _ _ _ (handle_writes r s) U) as [v1 [U1 [I1 [E1 P1]]]].
  destruct (IH _ _ _ U1) as [v2 [U2 [I2 [E2 P2]]]].
  exists v2. split; [exact U2|]. repeat split; congruence.
Qed.

(** C7, as the code has it: under the contract of the hasher, a
    registration with no blank field and an email that is not registered
    succeeds and creates a user [u]; a login with the same email and
    password fields then succeeds as [u], and after any further requests it
    still succeeds as the user of that rowid and email; any later
    registration whose email normalizes to the same address fails and
    creates no user: with the conflict error when its password and username
    are not blank, with the validation error when one of them is. *)
Theorem register_then_login {H : PasswordHasher} (hash_checks : hasher_ok H)
  salt form s :
  let email := Py.lower (Py.strip (form_get form "email")) in
  let password := Py.strip (form_get form "password") in
  let username := Py.strip (form_get form "username") in
  Py.truthy email = true ->
  Py.truthy password = true ->
  Py.truthy username = true ->
  user_by_email email s = None ->
  exists u s1,
    register salt form s
    = (Redirect "Welcome to EcoFinds!" "success" ep_dashboard, Some u, s1) /\
    users s1 = users s ++ [u] /\
    User.email u = email /\ User.username u = username /\
    (forall lform,
        form_get lform "email" = form_get form "email" ->
        form_get lform "password" = form_get form "password" ->
        login lform s1
        = (Redirect "Logged in successfully." "success" ep_dashboard, Some u, s1)) /\
    (forall rs lform,
        form_get lform "email" = form_get form "email" ->
        form_get lform "password" = form_get form "password" ->
        exists u',
          login lform (run rs s1)
          = (Redirect "Logged in successfully." "success" ep_dashboard, Some u',
             run rs s1) /\
          User.id u' = User.id u /\ User.email u' = email) /\
    (forall rs salt2 form2,
        Py.lower (Py.strip (form_get form2 "email")) = email ->
        let r := register salt2 form2 (run rs s1) in
        snd r = run rs s1 /\
        snd (fst r) = None /\
        (Py.truthy (Py.strip (form_get form2 "password")) = true ->
         Py.truthy (Py.strip (form_get form2 "username")) = true ->
         fst (fst r) = Redirect "Email already registered." "error" ep_register /\
         error_of (fst (fst r)) = Some ConflictError) /\
        (Py.truthy (Py.strip (form_get form2 "password")) = false \/
         Py.truthy (Py.strip (form_get form2 "username")) = false ->
         fst (fst r) = Redirect "Please fill all fields." "error" ep_register /\
         error_of (fst (fst r)) = Some ValidationError)).
Proof.
  intros email password username Te Tp Tu N.
  set (u := User.mk (Sql.next_id (map User.id (users s))) email
                    (generate_password_hash salt password) username).
  set (s1 := mkStore (users s ++ [u]) (products s) (cart_items s) (orders s)
                     (order_items s)).
  assert (L : user_by_email email s1 = Some u)
    by (apply (user_by_email_new s u); exact N).
  exists u, s1. split; [|split; [|split; [|split; [|split; [|split]]]]];
    try reflexivity.
  - unfold register. fold email password username.
    rewrite Te, Tp, Tu, N. reflexivity.
  - intros lform Ee Ep. unfold login. rewrite Ee, Ep.
    fold email password. rewrite L. cbn [User.password_hash u].
    now rewrite hash_checks.
  - intros rs lform Ee Ep.
    destruct (run_keeps_user rs s1 email u L) as [u' [U' [I' [E' P']]]].
    exists u'. unfold login. rewrite Ee, Ep. fold email password.
    rewrite U', P'. cbn [User.password_hash u]. rewrite hash_checks.
    repeat split; assumption.
  - intros rs salt2 form2 E2.
    destruct (run_keeps_user rs s1 email u L) as [u' [U' _]].
    cbn zeta. unfold register. rewrite E2, U', Te. cbn [negb orb].
    destruct (Py.truthy (Py.strip (form_get form2 "password")));
      destruct (Py.truthy (Py.strip (form_get form2 "username")));
      cbn [negb orb fst snd];
      (split; [reflexivity|]; split; [reflexivity|]; split);
      first [ intros A B; first [discriminate | split; reflexivity]
            | intros [K|K]; first [discriminate | split; reflexivity] ].
Qed.

Lemma register_then_login_witness :
  exists u s1,
    register (H := plain_hasher) "salt" ann_form empty_store
    = (Redirect "Welcome to EcoFinds!" "success" ep_dashboard, Some u, s1) /\
    login (H := plain_hasher) ann_form s1
    = (Redirect "Logged in successfully." "success" ep_dashboard, Some u, s1).
Proof.
  destruct (register_then_login (H := plain_hasher) plain_hasher_ok
              "salt" ann_form empty_store eq_refl eq_refl eq_refl eq_refl)
    as [u [s1 [R [_ [_ [_ [L _]]]]]]].
  exists u, s1. split; [exact R|]. apply L; reflexivity.
Defined.

(** C7 fails as stated: with the email of a registered user and a blank
    password, a second registration fails with the validation error of the
    blank-field check, not with the conflict error. *)
Lemma duplicate_email_with_blank_field :
  user_by_email "ann@example.org" demo_store
  = Some (User.mk 1 "ann@example.org" "pw-ann" "ann") /\
  register (H := plain_hasher) "salt"
           [("email", "ann@example.org"); ("password", "  "); ("username", "ann")]
           demo_store
  = (Redirect "Please fill all fields." "error" ep_register, None, demo_store) /\
  error_of (Redirect "Please fill all fields." "error" ep_register)
  = Some ValidationError.
Proof. repeat split. Qed.
